(** * DMX frame encoder and animation handler

    A shallow embedding of [controller.py] (class [DMX_controller]) and of
    the animation handler that drives it, with the properties the
    specification states about them.

    Python integers are [Z]; a [bytes] value is a list of [Z] in [0,256);
    a Python list is a [list] read through Python's own index and slice
    rules (negative positions count from the end, slices clamp).  Methods
    that touch [self], the USB device or the console run in a state and
    exception monad over an explicit [world]. *)

From Stdlib Require Import ZArith Lia QArith Qcanon Qround Ascii String.
From stdpp Require Import base tactics option list strings pretty numbers gmap.

Local Open Scope Z_scope.

(** ** Python built-ins used by the controller *)

Inductive exn : Type :=
| OverflowError
| IndexError
| USBError.

Module Py.

(** [l[lo:hi]]: a bound below zero counts from the end, and both bounds
    are clamped to the list. *)
Definition slice_bound (len i : Z) : Z :=
  if i <? 0 then Z.max 0 (i + len) else Z.min i len.

Definition slice {A} (l : list A) (lo hi : Z) : list A :=
  let len := Z.of_nat (length l) in
  let lo' := slice_bound len lo in
  let hi' := slice_bound len hi in
  take (Z.to_nat (hi' - lo')) (drop (Z.to_nat lo') l).

(** The position a subscript [l[i]] denotes, or [IndexError]. *)
Definition index {A} (l : list A) (i : Z) : exn + nat :=
  let len := Z.of_nat (length l) in
  let i' := if i <? 0 then i + len else i in
  if (i' <? 0) || (len <=? i') then inl IndexError else inr (Z.to_nat i').

Definition getitem {A} (l : list A) (i : Z) : exn + A :=
  match index l i with
  | inl e => inl e
  | inr n => match l !! n with Some x => inr x | None => inl IndexError end
  end.

Definition setitem {A} (l : list A) (i : Z) (x : A) : exn + list A :=
  match index l i with
  | inl e => inl e
  | inr n => inr (<[n := x]> l)
  end.

(** [n.to_bytes(length, byteorder='big')]. *)
Fixpoint big_endian (length : nat) (n : Z) : list Z :=
  match length with
  | O => []
  | S k => big_endian k (n / 256) ++ [n mod 256]
  end.

Definition to_bytes (n : Z) (length : nat) : exn + list Z :=
  if n <? 0 then inl OverflowError
  else if 256 ^ Z.of_nat length <=? n then inl OverflowError
  else inr (big_endian length n).

Definition str (n : Z) : string := pretty n.

End Py.

(** ** The world the controller runs in *)

Record DMX_controller : Type := mkController {
  update_rate_ms : Z;
  frame : list Z;
  prev_frame : list Z
}.

(** The module-level [dev].  [written] logs every payload accepted by
    [dev.write] with its endpoint, oldest first.  [faults] scripts the
    transport: each write consumes one entry, [Some e] makes that write
    raise [e]; an exhausted script accepts every write. *)
Record usb_device : Type := mkDevice {
  written : list (Z * list Z);
  faults : list (option exn)
}.

Record world : Type := mkWorld {
  self : DMX_controller;
  dev : usb_device;
  stdout : list string
}.

(** How a call ends: it returns, it raises, or the model ran out of
    [fuel] before the call ended. *)
Inductive outcome (E A : Type) : Type :=
| Returned (a : A)
| Raised (e : E)
| OutOfFuel.
Arguments Returned {E A} a.
Arguments Raised {E A} e.
Arguments OutOfFuel {E A}.

(** State [S] is threaded through the call also when it raises: what was
    written before the exception stays written. *)
Definition ret {S E A} (a : A) : S → outcome E A * S := λ s, (Returned a, s).

Definition bind {S E A B} (m : S → outcome E A * S)
    (k : A → S → outcome E B * S) : S → outcome E B * S := λ s,
  match m s with
  | (Returned a, s') => k a s'
  | (Raised e, s') => (Raised e, s')
  | (OutOfFuel, s') => (OutOfFuel, s')
  end.

Definition raise {S E A} (e : E) : S → outcome E A * S := λ s, (Raised e, s).
Definition out_of_fuel {S E A} : S → outcome E A * S := λ s, (OutOfFuel, s).

Definition lift {S E A} (r : E + A) : S → outcome E A * S :=
  match r with inl e => raise e | inr a => ret a end.

Notation "m ;; k" := (bind m (λ _, k))
  (at level 100, k at level 200, right associativity, only parsing).

(** Methods of the controller. *)
Definition M (A : Type) : Type := world → outcome exn A * world.

#[global] Instance M_ret : MRet M := λ A, ret.
#[global] Instance M_bind : MBind M := λ A B k m, bind m k.

Definition self_frame : M (list Z) := λ w, (Returned (frame (self w)), w).

Definition set_self_frame (fr : list Z) : M unit := λ w,
  (Returned tt,
   mkWorld (mkController (update_rate_ms (self w)) fr (prev_frame (self w)))
           (dev w) (stdout w)).

Definition print (line : string) : M unit := λ w,
  (Returned tt, mkWorld (self w) (dev w) (stdout w ++ [line])).

(** [dev.write(endpoint, data)]. *)
Definition dev_write (endpoint : Z) (data : list Z) : M unit := λ w,
  match faults (dev w) with
  | Some e :: rest =>
      (Raised e, mkWorld (self w) (mkDevice (written (dev w)) rest) (stdout w))
  | None :: rest =>
      (Returned tt,
       mkWorld (self w)
               (mkDevice (written (dev w) ++ [(endpoint, data)]) rest)
               (stdout w))
  | [] =>
      (Returned tt,
       mkWorld (self w)
               (mkDevice (written (dev w) ++ [(endpoint, data)]) [])
               (stdout w))
  end.

(** [for i in l: acc = body(acc, i)]. *)
Fixpoint for_each {A S} (l : list A) (acc : S) (body : S → A → M S) : M S :=
  match l with
  | [] => ret acc
  | x :: l' => acc' ← body acc x; for_each l' acc' body
  end.

(** [tmp += (i).to_bytes(1, byteorder='big')]. *)
Definition append_byte (tmp : list Z) (i : Z) : M (list Z) :=
  b ← lift (Py.to_bytes i 1); ret (tmp ++ b).

(** ** class DMX_controller *)

Definition init (rate : Z) : DMX_controller :=
  mkController rate (replicate 512 0) (replicate 512 0).

Definition set_channel (channel value : Z) : M unit :=
  fr ← self_frame;
  fr' ← lift (Py.setitem fr (channel - 1) value);
  set_self_frame fr'.

(** The [for]/[break] loop of [zeros_after_packet]. *)
Fixpoint count_zeros (l : list Z) (cnt : Z) : Z :=
  match l with
  | [] => cnt
  | i :: l' => if i =? 0 then count_zeros l' (cnt + 1) else cnt
  end.

Definition zeros_after_packet (data : list Z) (start : Z) : Z :=
  let cnt := count_zeros (Py.slice data start 505) 0 in
  if cnt <? 255 then cnt else 254.

Definition send_start (skip : Z) (data_array : list Z) : M unit :=
  tmp ← lift (Py.to_bytes 4 1);
  tmp ← append_byte tmp (skip + 1);
  tmp ← for_each data_array tmp append_byte;
  dev_write 1 tmp.

Definition send_data (data_array : list Z) : M unit :=
  tmp ← lift (Py.to_bytes 2 1);
  tmp ← for_each data_array tmp append_byte;
  dev_write 1 tmp.

Definition send_single (data : Z) : M unit :=
  tmp ← lift (Py.to_bytes 3 1);
  tmp ← append_byte tmp data;
  pad ← lift (Py.to_bytes 0 6);
  dev_write 1 (tmp ++ pad).

Definition send_data_skip (skip : Z) (data_array : list Z) : M unit :=
  tmp ← lift (Py.to_bytes 5 1);
  tmp ← append_byte tmp skip;
  tmp ← for_each data_array tmp append_byte;
  dev_write 1 tmp.

(** One pass through the body of [while(cnt<511)]: [Some cnt'] is the
    cursor the next test sees, [None] is [break]. *)
Definition make_frame_iter (tmp : list Z) (cnt : Z) : M (option Z) :=
  let zeros := zeros_after_packet tmp cnt in
  if cnt =? 0 then
    print ("send start chn:" +:+ Py.str (zeros + 1));;
    fr ← self_frame;
    send_start zeros (Py.slice fr zeros (zeros + 6));;
    ret (Some (6 + zeros))
  else if 511 <? cnt then ret None
  else if 504 <? cnt then
    if 512 - cnt =? 7 then
      print ("send data ch :" +:+ Py.str (cnt + 1));;
      fr ← self_frame;
      send_data (Py.slice fr cnt (cnt + 7));;
      ret (Some (cnt + 7))
    else
      print ("send single ch:" +:+ Py.str (cnt + 1));;
      fr ← self_frame;
      v ← lift (Py.getitem fr cnt);
      send_single v;;
      ret (Some (cnt + 1))
  else if 0 <? zeros then
    print ("send skip ch:" +:+ Py.str (cnt + zeros + 1));;
    fr ← self_frame;
    send_data_skip zeros (Py.slice fr (cnt + zeros) (cnt + zeros + 6));;
    ret (Some (cnt + (zeros + 6)))
  else
    print ("send data ch:" +:+ Py.str (cnt + 1));;
    fr ← self_frame;
    send_data (Py.slice fr cnt (cnt + 7));;
    ret (Some (cnt + 7)).

(** The [while] loop; it returns the cursor it stopped at.  [fuel] bounds
    the number of passes through the body. *)
Fixpoint make_frame_loop (fuel : nat) (tmp : list Z) (cnt : Z) : M Z :=
  if cnt <? 511 then
    match fuel with
    | O => out_of_fuel
    | S fuel' =>
        r ← make_frame_iter tmp cnt;
        match r with
        | None => ret cnt
        | Some cnt' => make_frame_loop fuel' tmp cnt'
        end
    end
  else ret cnt.

(** The cursor starts at 0 and every pass moves it forward, so 511 passes
    are never used up (see [make_frame_terminates]). *)
Definition make_frame_fuel : nat := 511.

Definition make_frame : M unit :=
  tmp ← self_frame;
  make_frame_loop make_frame_fuel tmp 0;;
  ret tt.

(** ** The packet grammar, as the receiver reads it

    Section 4.1 of the specification: type 4 carries skip-count + 1 and
    then channel values, type 5 a skip-count and then channel values,
    type 2 channel values only, type 3 one channel value and padding. *)

Definition decode_packet (p : list Z) : list Z :=
  match p with
  | 4 :: s :: vals => replicate (Z.to_nat (s - 1)) 0 ++ vals
  | 5 :: s :: vals => replicate (Z.to_nat s) 0 ++ vals
  | 2 :: vals => vals
  | 3 :: v :: _ => [v]
  | _ => []
  end.

(** Values sent plus zeros elided by the skip-count. *)
Definition channels_represented (p : list Z) : Z :=
  match p with
  | 4 :: s :: vals => (s - 1) + Z.of_nat (length vals)
  | 5 :: s :: vals => s + Z.of_nat (length vals)
  | 2 :: vals => Z.of_nat (length vals)
  | 3 :: _ :: _ => 1
  | _ => 0
  end.

Definition decode (log : list (Z * list Z)) : list Z :=
  concat (map (λ ep, decode_packet ep.2) log).

Fixpoint total_channels (log : list (Z * list Z)) : Z :=
  match log with
  | [] => 0
  | ep :: log' => channels_represented ep.2 + total_channels log'
  end.

Definition is_byte (v : Z) : bool := (0 <=? v) && (v <? 256).

(** A channel frame of the data model: 512 values, each one byte. *)
Definition channel_frame (fr : list Z) : Prop :=
  length fr = 512%nat ∧ Forall (λ v, 0 ≤ v < 256) fr.

(** What one pass of the loop body hands to [dev.write] at cursor [cnt]
    and where it leaves the cursor: one rule for each sending branch of
    [make_frame_iter]. *)
Inductive emits (tmp fr : list Z) (cnt : Z) : list Z → Z → Prop :=
| emits_start :
    cnt = 0 →
    emits tmp fr cnt
      (4 :: (zeros_after_packet tmp cnt + 1)
         :: Py.slice fr (zeros_after_packet tmp cnt) (zeros_after_packet tmp cnt + 6))
      (6 + zeros_after_packet tmp cnt)
| emits_last7 :
    cnt = 505 →
    emits tmp fr cnt (2 :: Py.slice fr cnt (cnt + 7)) (cnt + 7)
| emits_single v :
    505 < cnt ≤ 511 → Py.getitem fr cnt = inr v →
    emits tmp fr cnt [3; v; 0; 0; 0; 0; 0; 0] (cnt + 1)
| emits_skip :
    cnt ≠ 0 → cnt ≤ 504 → 0 < zeros_after_packet tmp cnt →
    emits tmp fr cnt
      (5 :: zeros_after_packet tmp cnt
         :: Py.slice fr (cnt + zeros_after_packet tmp cnt)
                        (cnt + zeros_after_packet tmp cnt + 6))
      (cnt + (zeros_after_packet tmp cnt + 6))
| emits_data :
    cnt ≠ 0 → cnt ≤ 504 → zeros_after_packet tmp cnt = 0 →
    emits tmp fr cnt (2 :: Py.slice fr cnt (cnt + 7)) (cnt + 7).

(** [sent fr log cnt]: starting from cursor 0 the loop has handed the
    payloads of [log] to the device, in that order, and its cursor is now
    [cnt]. *)
Inductive sent (fr : list Z) : list (Z * list Z) → Z → Prop :=
| sent_nil : sent fr [] 0
| sent_snoc log cnt p cnt' :
    sent fr log cnt → cnt < 511 → emits fr fr cnt p cnt' →
    sent fr (log ++ [(1, p)]) cnt'.

(** Why a pass of the loop body can raise [e] in world [w]. *)
Definition raise_cause (w : world) (cnt : Z) (e : exn) : Prop :=
  head (faults (dev w)) = Some (Some e)
  ∨ (e = OverflowError ∧ ¬ Forall (λ v, 0 ≤ v < 256) (frame (self w)))
  ∨ (e = IndexError ∧ Z.of_nat (length (frame (self w))) ≤ cnt).

(** Worlds to run the controller in: a controller holding [fr], a device
    that has accepted nothing yet, and a fault script. *)
Definition world_of (fr : list Z) (script : list (option exn)) : world :=
  mkWorld (mkController 0 fr (replicate 512 0)) (mkDevice [] script) [].

(** Channels 1 and 2 are zero, channels 3 to 511 hold 1, channel 512 holds 9. *)
Definition frame_two_leading_zeros : list Z :=
  [0; 0] ++ replicate 509 1 ++ [9].

Definition frame_all_ones : list Z := replicate 512 1.

(** Channels 1 to 6 are zero, channel 7 holds 7, the rest are zero. *)
Definition frame_six_zeros_then_seven : list Z :=
  replicate 6 0 ++ [7] ++ replicate 505 0.

(** ** The animation handler

    [controller_handler.py], [color.py], [config.py] and the exception
    classes are not among the sources; only the handler's tests are.  The
    definitions of this part follow the specification. *)

(** Modelled from the spec: the Color class (section 3).  Three integer
    components with component-wise addition and subtraction and
    multiplication by a scalar.  A colour that is applied to the device
    has its components in [0,255]; the difference of two colours, and a
    scaled difference, carry signed components (the handler's tests dim
    from 201 to 193 in steps of one, and section 8 asks for a sequence
    that is not constant whenever start and end differ). *)
Record Color : Type := mkColor { r : Z; g : Z; b : Z }.

(** Modelled from the spec: the clamp of a component to the byte range
    (section 3). *)
Definition clamp (v : Z) : Z := Z.max 0 (Z.min 255 v).

(** Modelled from the spec: what the handler is configured with and
    builds on, none of it in the sources.  [FPS] is the frame-rate
    constant (section 6), [eases] the registry of named tween curves
    (section 4.2), [to_component] turns a scaled component back into an
    integer, [parse_number] reads a duration (section 4.3). *)
Class Collaborators : Type := {
  FPS : Qc;
  eases : gmap string (Qc → Qc);
  to_component : Qc → Z;
  parse_number : string → option Qc
}.

(** Modelled from the spec: the cause an invalid request carries and the
    two error kinds that reach the caller (section 7). *)
Inductive cause : Type :=
| MissingKey (key : string)
| TypeMismatch (field : string)
| ValueParseFailure (field : string)
| UnknownEase.

(** Modelled from the spec: the two top-level error kinds, each with the
    cause it wraps (section 7). *)
Inductive error : Type :=
| InvalidRequest (inner : cause)
| SetLedFailure (inner : exn).

(** Modelled from the spec: the outer classification and the inner cause a
    caller reads back from an error (sections 4.3 and 7). *)
Inductive error_kind : Type := KInvalidRequest | KSetLedFailure.

(** Modelled from the spec: the outer classification of an error. *)
Definition kind_of (e : error) : error_kind :=
  match e with InvalidRequest _ => KInvalidRequest | SetLedFailure _ => KSetLedFailure end.

(** Modelled from the spec: the inner cause of an invalid request. *)
Definition cause_of (e : error) : option cause :=
  match e with InvalidRequest c => Some c | SetLedFailure _ => None end.

(** Modelled from the spec: a value of the request mapping of section 4.3,
    which is null, a string, a number, or anything else JSON can hold. *)
Inductive json : Type :=
| JNull
| JString (s : string)
| JNumber (q : Qc)
| JOther.

(** Modelled from the spec: the handler's state (section 3, current
    color), which is the last colour it applied, and the controller it
    owns together with the world that controller runs in. *)
Record handler_state : Type := mkHandler {
  current_color : Color;
  controller : world
}.

(** Modelled from the spec: methods of the handler run over its state and
    end in one of the two error kinds. *)
Definition HM (A : Type) : Type :=
  handler_state → outcome error A * handler_state.

#[global] Instance HM_ret : MRet HM := λ A, ret.
#[global] Instance HM_bind : MBind HM := λ A B k m, bind m k.

(** Modelled from the spec: component-wise addition (section 3).  The
    sum is the colour of a frame, so each component is clamped to
    [0,255]. *)
Definition color_add (c1 c2 : Color) : Color :=
  mkColor (clamp (r c1 + r c2)) (clamp (g c1 + g c2)) (clamp (b c1 + b c2)).

(** Modelled from the spec: component-wise subtraction (section 3).  The
    difference keeps its sign: [final - start] is negative where the
    target is dimmer than the start. *)
Definition color_sub (c1 c2 : Color) : Color :=
  mkColor (r c1 - r c2) (g c1 - g c2) (b c1 - b c2).

(** Modelled from the spec: one hexadecimal digit of a colour string
    (section 3). *)
Definition hex_digit (c : ascii) : option Z :=
  let n := Z.of_N (N_of_ascii c) in
  if (48 <=? n) && (n <=? 57) then Some (n - 48)
  else if (65 <=? n) && (n <=? 70) then Some (n - 55)
  else if (97 <=? n) && (n <=? 102) then Some (n - 87)
  else None.

(** Modelled from the spec: two hexadecimal digits make one component. *)
Definition hex_pair (hi lo : ascii) : option Z :=
  h ← hex_digit hi; l ← hex_digit lo; Some (16 * h + l).

(** Modelled from the spec: a colour is parsed from a number sign and six
    hexadecimal digits, and from nothing else (section 3). *)
Definition parse_color (s : string) : option Color :=
  match s with
  | String "#" (String r1 (String r2 (String g1 (String g2
      (String b1 (String b2 EmptyString)))))) =>
      r ← hex_pair r1 r2; g ← hex_pair g1 g2; b ← hex_pair b1 b2;
      Some (mkColor r g b)
  | _ => None
  end.

(** Modelled from the spec: the linear-space generator of section 4.2,
    [num] evenly spaced samples over the closed interval from [start] to
    [stop]. *)
Definition linspace (start stop : Qc) (num : Z) : list Qc :=
  if num =? 1 then [start]
  else map (λ i : Z, (start + Qc_of_Z i * ((stop - start) / Qc_of_Z (num - 1)))%Qc)
           (seqZ 0 num).

Section Handler.
Context `{Collaborators}.

(** Modelled from the spec: multiplication of a colour by a scalar
    (section 3), each scaled component turned back into an integer.  The
    sign of a component is kept. *)
Definition color_mul (c : Color) (t : Qc) : Color :=
  mkColor (to_component (Qc_of_Z (r c) * t)%Qc)
          (to_component (Qc_of_Z (g c) * t)%Qc)
          (to_component (Qc_of_Z (b c) * t)%Qc).

(** Modelled from the spec: floor(FPS x duration_ms / 1000). *)
Definition step_count (duration : Qc) : Z :=
  Qfloor (FPS * duration / Qc_of_Z 1000)%Qc.

(** Modelled from the spec: [generate] of section 4.2.  [None] is an
    absent or null ease name. *)
Definition generate_animation (start final : Color) (duration : Qc)
    (ease_name : option string) : error + list Color :=
  match ease_name with
  | None => inl (InvalidRequest (TypeMismatch "ease"))
  | Some name =>
      match eases !! name with
      | None => inl (InvalidRequest UnknownEase)
      | Some ease =>
          let steps := step_count duration in
          if steps <=? 0 then inr [final]
          else if steps =? 1 then inr [start; final]
          else
            let diff := color_sub final start in
            inr (map (λ t, color_add start (color_mul diff (ease t)))
                     (linspace 0 1 steps))
      end
  end.

(** Modelled from the spec: [set_led] of section 4.3.  Channels 1 to 3
    receive r, g and b, the encoder transmits the frame, and whatever
    is raised on the way is wrapped as a set-led failure. *)
Definition set_led (color : Color) : HM unit := λ st,
  match (set_channel 1 (r color);;
         set_channel 2 (g color);;
         set_channel 3 (b color);;
         make_frame) (controller st) with
  | (Returned _, w') => (Returned tt, mkHandler (current_color st) w')
  | (Raised e, w') => (Raised (SetLedFailure e), mkHandler (current_color st) w')
  | (OutOfFuel, w') => (OutOfFuel, mkHandler (current_color st) w')
  end.

(** Modelled from the spec: [play] of section 4.2, one [set_led] per
    element, in order. *)
Fixpoint play_animation (sequence : list Color) : HM unit :=
  match sequence with
  | [] => ret tt
  | color :: rest => set_led color;; play_animation rest
  end.

(** Modelled from the spec: the validation of section 4.3, field by
    field, in the order colour, duration, ease. *)
Definition request_color (request : gmap string json) : error + Color :=
  match request !! "color" with
  | None => inl (InvalidRequest (MissingKey "color"))
  | Some (JString s) =>
      match parse_color s with
      | Some c => inr c
      | None => inl (InvalidRequest (ValueParseFailure "color"))
      end
  | Some _ => inl (InvalidRequest (TypeMismatch "color"))
  end.

(** Modelled from the spec: the duration field (section 4.3). *)
Definition request_duration (request : gmap string json) : error + Qc :=
  match request !! "duration" with
  | None => inl (InvalidRequest (MissingKey "duration"))
  | Some JNull => inl (InvalidRequest (TypeMismatch "duration"))
  | Some (JString s) =>
      match parse_number s with
      | Some d => inr d
      | None => inl (InvalidRequest (ValueParseFailure "duration"))
      end
  | Some (JNumber d) => inr d
  | Some JOther => inl (InvalidRequest (ValueParseFailure "duration"))
  end.

(** Modelled from the spec: the ease field (section 4.3). *)
Definition request_ease (request : gmap string json) : error + string :=
  match request !! "ease" with
  | None => inl (InvalidRequest (MissingKey "ease"))
  | Some JNull => inl (InvalidRequest (TypeMismatch "ease"))
  | Some (JString name) =>
      match eases !! name with
      | Some _ => inr name
      | None => inl (InvalidRequest UnknownEase)
      end
  | Some _ => inl (InvalidRequest UnknownEase)
  end.

(** Modelled from the spec: the read of the current color. *)
Definition get_current_color : HM Color := λ st, (Returned (current_color st), st).

(** Modelled from the spec: the update of the current color. *)
Definition set_current_color (c : Color) : HM unit := λ st,
  (Returned tt, mkHandler c (controller st)).

(** Modelled from the spec: [animate] of section 4.3.  Validate, then
    generate, then play, then remember the last colour played. *)
Definition animate (request : gmap string json) : HM unit :=
  color ← lift (request_color request);
  duration ← lift (request_duration request);
  ease ← lift (request_ease request);
  start ← get_current_color;
  sequence ← lift (generate_animation start color duration (Some ease));
  play_animation sequence;;
  match last sequence with
  | Some c => set_current_color c
  | None => ret tt
  end.

End Handler.

(** A configuration to run the handler with: 30 frames per second, the
    curves [linear] and [easeInQuad], components rounded down, durations
    written as decimal digits. *)
Definition digit_value (c : ascii) : option Z :=
  let n := Z.of_N (N_of_ascii c) in
  if (48 <=? n) && (n <=? 57) then Some (n - 48) else None.

Fixpoint parse_digits (s : string) (acc : Z) : option Z :=
  match s with
  | EmptyString => Some acc
  | String c s' => d ← digit_value c; parse_digits s' (10 * acc + d)
  end.

Definition parse_decimal (s : string) : option Qc :=
  match s with
  | EmptyString => None
  | _ => Qc_of_Z <$> parse_digits s 0
  end.

Definition example_collaborators : Collaborators := {|
  FPS := Qc_of_Z 30;
  eases := {[ "linear" := (λ t : Qc, t); "easeInQuad" := (λ t : Qc, (t * t)%Qc) ]};
  to_component := λ q : Qc, Qfloor q;
  parse_number := parse_decimal
|}.

(** The colours and the expected animation of the handler's tests
    ([START_COLOR], [FINAL_COLOR] and [DEFAULT_ANIMATION] of
    [test_controller_handler.py]). *)
Definition START_COLOR : Color := mkColor 201 117 128.
Definition FINAL_COLOR : Color := mkColor 193 109 120.
Definition DEFAULT_ANIMATION : list Color :=
  [mkColor 201 117 128; mkColor 200 116 127; mkColor 199 115 126;
   mkColor 198 114 125; mkColor 197 113 124; mkColor 196 112 123;
   mkColor 195 111 122; mkColor 194 110 121; mkColor 193 109 120].

Definition example_request : gmap string json :=
  {[ "color" := JString "#C9751C"; "duration" := JString "300";
     "ease" := JString "linear" ]}.

(** A handler whose last colour is (10, 20, 30), over a controller as
    [DMX_controller(1)] builds it. *)
Definition example_handler (script : list (option exn)) : handler_state :=
  mkHandler (mkColor 10 20 30) (mkWorld (init 1) (mkDevice [] script) []).

(** The form every sending pass of the loop body takes: print [line], then
    either hand [p] to the device or raise [e] before reaching it, then
    move the cursor to [c']. *)
Definition sending_pass (line : string) (ok : bool) (p : list Z) (e : exn)
    (c' : Z) : M (option Z) :=
  print line;;
  (λ w0, if ok then dev_write 1 p w0 else (Raised e, w0));;
  ret (Some c').

(** The payloads [make_frame] hands to a device that accepts every write,
    for a controller whose frame is [fr]. *)
Definition frame_packets (fr : list Z) : list (Z * list Z) :=
  written (dev (make_frame (mkWorld (mkController 0 fr []) (mkDevice [] []) [])).2).

(** Three leading zeros, then ones. *)
Definition frame_three_leading_zeros : list Z :=
  [0; 0; 0] ++ replicate 509 1.

(** A caller that sets channels one after the other, [calls] being the
    pairs (channel, value), and goes on after a call that raises. *)
Definition after_calls (calls : list (Z * Z)) (w : world) : world :=
  foldl (λ w cv, (set_channel cv.1 cv.2 w).2) w calls.

(** * Properties *)

(** ** Python slices and subscripts *)

Lemma slice_nonneg {A} (l : list A) (lo hi : Z) :
  0 ≤ lo → 0 ≤ hi →
  Py.slice l lo hi
  = take (Z.to_nat (Z.min hi (Z.of_nat (length l)) - Z.min lo (Z.of_nat (length l))))
         (drop (Z.to_nat (Z.min lo (Z.of_nat (length l)))) l).
Proof.
  intros Hlo Hhi. unfold Py.slice, Py.slice_bound.
  destruct (Z.ltb_spec lo 0), (Z.ltb_spec hi 0); try lia. reflexivity.
Qed.

Lemma slice_inside {A} (l : list A) (lo hi : Z) :
  0 ≤ lo ≤ hi → hi ≤ Z.of_nat (length l) →
  Py.slice l lo hi = take (Z.to_nat (hi - lo)) (drop (Z.to_nat lo) l).
Proof.
  intros Hlo Hhi. rewrite slice_nonneg by lia.
  rewrite !Z.min_l by lia. reflexivity.
Qed.

Lemma slice_length {A} (l : list A) (lo hi : Z) :
  0 ≤ lo ≤ hi → hi ≤ Z.of_nat (length l) →
  length (Py.slice l lo hi) = Z.to_nat (hi - lo).
Proof.
  intros Hlo Hhi. rewrite slice_inside by lia.
  rewrite length_take, length_drop. lia.
Qed.

Lemma slice_lookup {A} (l : list A) (lo hi : Z) (i : nat) :
  0 ≤ lo → 0 ≤ hi →
  Py.slice l lo hi !! i
  = if decide (lo + Z.of_nat i < hi) then l !! (Z.to_nat lo + i)%nat else None.
Proof.
  intros Hlo Hhi. rewrite slice_nonneg by lia.
  set (len := Z.of_nat (length l)).
  destruct (decide (lo + Z.of_nat i < hi)) as [Hin|Hout].
  - destruct (decide (lo + Z.of_nat i < len)) as [Hl|Hl].
    + rewrite lookup_take_lt by lia. rewrite lookup_drop. f_equal. lia.
    + rewrite (lookup_ge_None_2 l (Z.to_nat lo + i)) by (subst len; lia).
      apply lookup_ge_None_2. rewrite length_take, length_drop. subst len. lia.
  - apply lookup_ge_None_2. rewrite length_take, length_drop. subst len. lia.
Qed.

Lemma slice_Forall {A} (P : A → Prop) (l : list A) (lo hi : Z) :
  Forall P l → Forall P (Py.slice l lo hi).
Proof. intros H. unfold Py.slice. by apply Forall_take, Forall_drop. Qed.

Lemma take_slice {A} (l : list A) (lo hi : Z) :
  0 ≤ lo ≤ hi → hi ≤ Z.of_nat (length l) →
  take (Z.to_nat hi) l = take (Z.to_nat lo) l ++ Py.slice l lo hi.
Proof.
  intros Hlo Hhi. rewrite slice_inside by lia.
  rewrite take_take_drop. f_equal. lia.
Qed.

Lemma slice_app {A} (l : list A) (a b c : Z) :
  0 ≤ a ≤ b → b ≤ c → c ≤ Z.of_nat (length l) →
  Py.slice l a b ++ Py.slice l b c = Py.slice l a c.
Proof.
  intros Ha Hb Hc. rewrite !slice_inside by lia.
  replace (drop (Z.to_nat b) l)
    with (drop (Z.to_nat (b - a)) (drop (Z.to_nat a) l))
    by (rewrite drop_drop; f_equal; lia).
  rewrite take_take_drop. f_equal. lia.
Qed.

(** ** zeros_after_packet *)

Lemma count_zeros_spec (l : list Z) (c : Z) :
  c ≤ count_zeros l c ≤ c + Z.of_nat (length l)
  ∧ (∀ i : nat, Z.of_nat i < count_zeros l c - c → l !! i = Some 0)
  ∧ l !! Z.to_nat (count_zeros l c - c) ≠ Some 0.
Proof.
  revert c. induction l as [|x l IH]; intros c; simpl.
  - split; [lia|]. split; [intros i Hi; lia|]. by rewrite lookup_nil.
  - destruct (Z.eqb_spec x 0) as [->|Hx].
    + destruct (IH (c + 1)) as (Hb & Hz & Hn). split; [lia|]. split.
      * intros [|i] Hi; [done|]. simpl. apply Hz. lia.
      * replace (Z.to_nat (count_zeros l (c + 1) - c))
          with (S (Z.to_nat (count_zeros l (c + 1) - (c + 1)))) by lia.
        exact Hn.
    + split; [lia|]. split; [intros i Hi; lia|].
      rewrite Z.sub_diag. simpl. congruence.
Qed.

Lemma zeros_after_packet_range (data : list Z) (start : Z) :
  0 ≤ zeros_after_packet data start ≤ 254.
Proof.
  unfold zeros_after_packet.
  pose proof (count_zeros_spec (Py.slice data start 505) 0) as (Hb & _).
  destruct (Z.ltb_spec (count_zeros (Py.slice data start 505) 0) 255); lia.
Qed.

Lemma zeros_after_packet_zero (data : list Z) (start : Z) (k : Z) :
  0 ≤ start → start ≤ k < start + zeros_after_packet data start →
  k < 505 ∧ data !! Z.to_nat k = Some 0.
Proof.
  intros Hs Hk. unfold zeros_after_packet in Hk.
  pose proof (count_zeros_spec (Py.slice data start 505) 0) as (Hb & Hz & _).
  set (n := count_zeros (Py.slice data start 505) 0) in *.
  assert (Hi : Z.of_nat (Z.to_nat (k - start)) < n - 0)
    by (destruct (Z.ltb_spec n 255); lia).
  apply Hz in Hi. rewrite slice_lookup in Hi by lia.
  destruct (decide _) as [Hlt|]; [|done].
  split; [lia|]. rewrite <- Hi. f_equal. lia.
Qed.

Lemma zeros_after_packet_maximal (data : list Z) (start : Z) :
  0 ≤ start →
  zeros_after_packet data start < 254 →
  start + zeros_after_packet data start < 505 →
  data !! Z.to_nat (start + zeros_after_packet data start) ≠ Some 0.
Proof.
  intros Hs. unfold zeros_after_packet.
  pose proof (count_zeros_spec (Py.slice data start 505) 0) as (Hb & _ & Hn).
  set (n := count_zeros (Py.slice data start 505) 0) in *.
  destruct (Z.ltb_spec n 255); [|lia]. intros _ Hlt.
  rewrite slice_lookup in Hn by lia.
  destruct (decide _) as [_|Hge]; [|lia].
  intros Hz. apply Hn. rewrite <- Hz. f_equal. lia.
Qed.

Lemma zeros_after_packet_fits (data : list Z) (start : Z) :
  0 ≤ start → 0 < zeros_after_packet data start →
  start + zeros_after_packet data start ≤ 505.
Proof.
  intros Hs Hz.
  destruct (zeros_after_packet_zero data start
              (start + zeros_after_packet data start - 1)); lia.
Qed.

Lemma zeros_slice (data : list Z) (start : Z) :
  0 ≤ start →
  Py.slice data start (start + zeros_after_packet data start)
  = replicate (Z.to_nat (zeros_after_packet data start)) 0.
Proof.
  intros Hs. pose proof (zeros_after_packet_range data start) as Hr.
  apply list_eq. intros i. rewrite slice_lookup by lia.
  destruct (decide (start + Z.of_nat i < start + zeros_after_packet data start))
    as [Hi|Hi].
  - rewrite lookup_replicate_2 by lia.
    destruct (zeros_after_packet_zero data start (start + Z.of_nat i))
      as [_ Hz]; [lia|lia|].
    rewrite <- Hz. f_equal. lia.
  - symmetry. apply lookup_replicate_None. lia.
Qed.

(** C3. For every frame and every start index, [zeros_after_packet]
    returns the length of the run of zero channels that begins at that
    index: every position it counts holds 0 and lies below index 505 (so
    indices 505 to 511 never count), the run is maximal unless it was cut
    at index 505 or at the cap, and the result never exceeds 254. *)
Theorem zeros_after_packet_counts_run (data : list Z) (start : Z) :
  0 ≤ start →
  0 ≤ zeros_after_packet data start ≤ 254
  ∧ (∀ k, start ≤ k < start + zeros_after_packet data start →
          k < 505 ∧ data !! Z.to_nat k = Some 0)
  ∧ (zeros_after_packet data start < 254 →
     start + zeros_after_packet data start < 505 →
     data !! Z.to_nat (start + zeros_after_packet data start) ≠ Some 0).
Proof.
  intros Hs. split; [apply zeros_after_packet_range|]. split.
  - intros k Hk. by apply (zeros_after_packet_zero data start).
  - by apply zeros_after_packet_maximal.
Qed.

Lemma zeros_after_packet_counts_run_witness :
  0 ≤ 0
  ∧ 0 ≤ zeros_after_packet frame_six_zeros_then_seven 0 ≤ 254
  ∧ (∀ k, 0 ≤ k < 0 + zeros_after_packet frame_six_zeros_then_seven 0 →
          k < 505 ∧ frame_six_zeros_then_seven !! Z.to_nat k = Some 0)
  ∧ (zeros_after_packet frame_six_zeros_then_seven 0 < 254 →
     0 + zeros_after_packet frame_six_zeros_then_seven 0 < 505 →
     frame_six_zeros_then_seven
       !! Z.to_nat (0 + zeros_after_packet frame_six_zeros_then_seven 0)
     ≠ Some 0).
Proof.
  split; [lia|].
  apply (zeros_after_packet_counts_run frame_six_zeros_then_seven 0). lia.
Defined.

Example zeros_after_packet_examples :
  zeros_after_packet frame_six_zeros_then_seven 0 = 6
  ∧ zeros_after_packet frame_six_zeros_then_seven 7 = 254
  ∧ zeros_after_packet (replicate 512 0) 0 = 254
  ∧ zeros_after_packet (replicate 512 0) 500 = 5
  ∧ zeros_after_packet (replicate 512 0) 505 = 0.
Proof. vm_compute. by split_and!. Qed.

(** ** The send methods *)

Lemma to_bytes_1 (i : Z) :
  Py.to_bytes i 1 = if is_byte i then inr [i] else inl OverflowError.
Proof.
  unfold Py.to_bytes, is_byte. change (256 ^ Z.of_nat 1) with 256.
  destruct (Z.ltb_spec i 0), (Z.leb_spec 0 i); try lia; simpl; [done|].
  destruct (Z.leb_spec 256 i), (Z.ltb_spec i 256); try lia; [done|].
  by rewrite Z.mod_small by lia.
Qed.

Lemma append_byte_eq (tmp : list Z) (i : Z) (w : world) :
  append_byte tmp i w
  = if is_byte i then (Returned (tmp ++ [i]), w) else (Raised OverflowError, w).
Proof.
  unfold append_byte, mbind, M_bind, bind. rewrite to_bytes_1.
  by destruct (is_byte i).
Qed.

Lemma for_each_append_byte (l tmp : list Z) (w : world) :
  for_each l tmp append_byte w
  = if forallb is_byte l then (Returned (tmp ++ l), w)
    else (Raised OverflowError, w).
Proof.
  revert tmp. induction l as [|x l IH]; intros tmp; simpl.
  - unfold ret. by rewrite app_nil_r.
  - unfold mbind, M_bind, bind. rewrite append_byte_eq.
    destruct (is_byte x); simpl; [|done].
    rewrite IH. by rewrite <- app_assoc.
Qed.

Lemma send_data_eq (data : list Z) (w : world) :
  send_data data w
  = if forallb is_byte data then dev_write 1 (2 :: data) w
    else (Raised OverflowError, w).
Proof.
  unfold send_data, mbind, M_bind, bind. simpl.
  rewrite for_each_append_byte. by destruct (forallb is_byte data).
Qed.

Lemma send_start_eq (skip : Z) (data : list Z) (w : world) :
  send_start skip data w
  = if is_byte (skip + 1) && forallb is_byte data
    then dev_write 1 (4 :: (skip + 1) :: data) w
    else (Raised OverflowError, w).
Proof.
  unfold send_start, mbind, M_bind, bind. simpl.
  rewrite append_byte_eq. destruct (is_byte (skip + 1)); simpl; [|done].
  rewrite for_each_append_byte. by destruct (forallb is_byte data).
Qed.

Lemma send_data_skip_eq (skip : Z) (data : list Z) (w : world) :
  send_data_skip skip data w
  = if is_byte skip && forallb is_byte data
    then dev_write 1 (5 :: skip :: data) w
    else (Raised OverflowError, w).
Proof.
  unfold send_data_skip, mbind, M_bind, bind. simpl.
  rewrite append_byte_eq. destruct (is_byte skip); simpl; [|done].
  rewrite for_each_append_byte. by destruct (forallb is_byte data).
Qed.

Lemma send_single_eq (v : Z) (w : world) :
  send_single v w
  = if is_byte v then dev_write 1 [3; v; 0; 0; 0; 0; 0; 0] w
    else (Raised OverflowError, w).
Proof.
  unfold send_single, mbind, M_bind, bind. simpl.
  rewrite append_byte_eq. by destruct (is_byte v).
Qed.

(** ** One pass of the loop body *)

Lemma is_byte_spec (v : Z) : is_byte v = true ↔ 0 ≤ v < 256.
Proof.
  unfold is_byte. rewrite andb_true_iff, Z.leb_le, Z.ltb_lt. tauto.
Qed.

Lemma forallb_is_byte (l : list Z) :
  forallb is_byte l = true ↔ Forall (λ v, 0 ≤ v < 256) l.
Proof.
  induction l as [|x l IH]; simpl.
  - split; [constructor|done].
  - rewrite andb_true_iff, Forall_cons, IH, is_byte_spec. tauto.
Qed.

Lemma slice_not_bytes (fr : list Z) (lo hi : Z) :
  forallb is_byte (Py.slice fr lo hi) = false →
  ¬ Forall (λ v, 0 ≤ v < 256) fr.
Proof.
  intros Hf Hall. apply (slice_Forall _ _ lo hi) in Hall.
  apply forallb_is_byte in Hall. congruence.
Qed.

(** Every sending branch of [make_frame_iter] prints a line, reads
    [self.frame], calls one [send_*] method and moves the cursor.  With
    the [send_*] equation at hand the branch either writes one payload,
    or raises before it reaches the device, or the device raises. *)
Lemma send_branch_cases (line : string) (send : list Z → M unit)
    (ok : bool) (p : list Z) (e : exn) (c : Z) (w : world)
    (r : outcome exn (option Z) * world) :
  (∀ w0, send (frame (self w)) w0
         = if ok then dev_write 1 p w0 else (Raised e, w0)) →
  r = (print line;; fr ← self_frame; send fr;; ret (Some c)) w →
  self r.2 = self w
  ∧ match r.1 with
    | Returned (Some c') =>
        c' = c ∧ ok = true
        ∧ written (dev r.2) = written (dev w) ++ [(1, p)]
        ∧ faults (dev r.2) = tail (faults (dev w))
    | Returned None => False
    | Raised e' =>
        written (dev r.2) = written (dev w)
        ∧ ((ok = false ∧ e' = e) ∨ head (faults (dev w)) = Some (Some e'))
    | OutOfFuel => False
    end.
Proof.
  intros Hsend ->. unfold mbind, M_bind, bind, print, self_frame.
  cbn [self dev stdout]. rewrite Hsend. destruct ok; [|simpl; auto].
  unfold dev_write. cbn [self dev stdout].
  destruct (faults (dev w)) as [|[e'|] rest]; simpl; auto.
Qed.

Lemma send_single_getitem_eq (fr : list Z) (cnt : Z) (w0 : world) :
  (v ← lift (Py.getitem fr cnt); send_single v) w0
  = match Py.getitem fr cnt with
    | inr v => if is_byte v then dev_write 1 [3; v; 0; 0; 0; 0; 0; 0] w0
               else (Raised OverflowError, w0)
    | inl e => (Raised e, w0)
    end.
Proof.
  unfold mbind, M_bind, bind. destruct (Py.getitem fr cnt) as [e|v]; simpl.
  - done.
  - apply send_single_eq.
Qed.

Lemma single_branch_assoc (line : string) (cnt c : Z) (w : world) :
  (print line;; fr ← self_frame; v ← lift (Py.getitem fr cnt);
   send_single v;; ret (Some c)) w
  = (print line;; fr ← self_frame;
     (λ fr, v ← lift (Py.getitem fr cnt); send_single v) fr;; ret (Some c)) w.
Proof.
  unfold mbind, M_bind, bind, print, self_frame. cbn [self dev stdout].
  by destruct (Py.getitem (frame (self w)) cnt).
Qed.

Lemma getitem_cases {A} (l : list A) (i : Z) :
  0 ≤ i →
  match Py.getitem l i with
  | inr x => l !! Z.to_nat i = Some x
  | inl e => e = IndexError ∧ Z.of_nat (length l) ≤ i
  end.
Proof.
  intros Hi. unfold Py.getitem, Py.index.
  destruct (Z.ltb_spec i 0); [lia|].
  destruct (Z.ltb_spec i 0); [lia|].
  destruct (Z.leb_spec (Z.of_nat (length l)) i); simpl; [done|].
  destruct (l !! Z.to_nat i) eqn:Hl; [done|].
  apply lookup_ge_None in Hl. lia.
Qed.

Lemma make_frame_iter_cases (tmp : list Z) (cnt : Z) (w : world) :
  self (make_frame_iter tmp cnt w).2 = self w
  ∧ match (make_frame_iter tmp cnt w).1 with
    | Returned (Some cnt') =>
        ∃ p, emits tmp (frame (self w)) cnt p cnt'
             ∧ written (dev (make_frame_iter tmp cnt w).2)
               = written (dev w) ++ [(1, p)]
             ∧ faults (dev (make_frame_iter tmp cnt w).2) = tail (faults (dev w))
    | Returned None => 511 < cnt ∧ make_frame_iter tmp cnt w = (Returned None, w)
    | Raised e =>
        written (dev (make_frame_iter tmp cnt w).2) = written (dev w)
        ∧ raise_cause w cnt e
    | OutOfFuel => False
    end.
Proof.
  remember (make_frame_iter tmp cnt w) as r eqn:Hr. unfold make_frame_iter in Hr.
  pose proof (zeros_after_packet_range tmp cnt) as Hzr.
  unfold raise_cause.
  destruct (Z.eqb_spec cnt 0) as [H0|H0].
  { eapply send_branch_cases in Hr; [|intros w0; apply send_start_eq].
    destruct Hr as [Hs Hr]. split; [done|].
    destruct r.1 as [[c'|]|e'|]; try done.
    - destruct Hr as (-> & Hok & Hw & Hf).
      eexists. split; [by apply emits_start|]. by split.
    - destruct Hr as (Hw & [[Hok ->]|Hf]); [|by auto]. split; [done|].
      right; left. split; [done|].
      apply andb_false_iff in Hok as [Hok|Hok].
      + assert (is_byte (zeros_after_packet tmp cnt + 1) = true)
          by (apply is_byte_spec; lia). congruence.
      + by eapply slice_not_bytes. }
  destruct (Z.ltb_spec 511 cnt) as [H511|H511].
  { subst r. simpl. auto. }
  destruct (Z.ltb_spec 504 cnt) as [H504|H504].
  - destruct (Z.eqb_spec (512 - cnt) 7) as [H7|H7].
    + eapply send_branch_cases in Hr; [|intros w0; apply send_data_eq].
      destruct Hr as [Hs Hr]. split; [done|].
      destruct r.1 as [[c'|]|e'|]; try done.
      * destruct Hr as (-> & Hok & Hw & Hf).
        eexists. split; [apply emits_last7; lia|]. by split.
      * destruct Hr as (Hw & [[Hok ->]|Hf]); [|by auto]. split; [done|].
        right; left. split; [done|]. by eapply slice_not_bytes.
    + rewrite single_branch_assoc in Hr.
      pose proof (getitem_cases (frame (self w)) cnt ltac:(lia)) as Hgc.
      destruct (Py.getitem (frame (self w)) cnt) as [e|v] eqn:Hget.
      * eapply (send_branch_cases _ _ false [] e) in Hr;
          [|intros w0; rewrite send_single_getitem_eq, Hget; reflexivity].
        destruct Hr as [Hs Hr]. split; [done|].
        destruct r.1 as [[c'|]|e'|]; try done.
        -- by destruct Hr as (_ & ? & _).
        -- destruct Hr as (Hw & [[_ ->]|Hf]); [|by auto]. split; [done|].
           right; right. done.
      * eapply (send_branch_cases _ _ (is_byte v) [3; v; 0; 0; 0; 0; 0; 0]
                  OverflowError) in Hr;
          [|intros w0; rewrite send_single_getitem_eq, Hget; reflexivity].
        destruct Hr as [Hs Hr]. split; [done|].
        destruct r.1 as [[c'|]|e'|]; try done.
        -- destruct Hr as (-> & Hok & Hw & Hf).
           eexists. split; [apply emits_single; [lia|done]|]. by split.
        -- destruct Hr as (Hw & [[Hok ->]|Hf]); [|by auto]. split; [done|].
           right; left. split; [done|]. intros Hall.
           rewrite Forall_lookup in Hall. apply Hall in Hgc.
           apply is_byte_spec in Hgc. congruence.
  - destruct (Z.ltb_spec 0 (zeros_after_packet tmp cnt)) as [Hz|Hz].
    + eapply send_branch_cases in Hr; [|intros w0; apply send_data_skip_eq].
      destruct Hr as [Hs Hr]. split; [done|].
      destruct r.1 as [[c'|]|e'|]; try done.
      * destruct Hr as (-> & Hok & Hw & Hf).
        eexists. split; [by apply emits_skip|]. by split.
      * destruct Hr as (Hw & [[Hok ->]|Hf]); [|by auto]. split; [done|].
        right; left. split; [done|].
        apply andb_false_iff in Hok as [Hok|Hok].
        -- assert (is_byte (zeros_after_packet tmp cnt) = true)
             by (apply is_byte_spec; lia). congruence.
        -- by eapply slice_not_bytes.
    + eapply send_branch_cases in Hr; [|intros w0; apply send_data_eq].
      destruct Hr as [Hs Hr]. split; [done|].
      destruct r.1 as [[c'|]|e'|]; try done.
      * destruct Hr as (-> & Hok & Hw & Hf).
        eexists. split; [apply emits_data; lia|]. by split.
      * destruct Hr as (Hw & [[Hok ->]|Hf]); [|by auto]. split; [done|].
        right; left. split; [done|]. by eapply slice_not_bytes.
Qed.

Lemma channel_frame_getitem (fr : list Z) (i : Z) :
  channel_frame fr → 0 ≤ i < 512 →
  ∃ v, Py.getitem fr i = inr v ∧ 0 ≤ v < 256 ∧ Py.slice fr i (i + 1) = [v].
Proof.
  intros [Hlen Hb] Hi.
  destruct (lookup_lt_is_Some_2 fr (Z.to_nat i)) as [v Hv]; [lia|].
  exists v. split; [|split].
  - unfold Py.getitem, Py.index. rewrite Hlen.
    destruct (Z.ltb_spec i 0); [lia|].
    destruct (Z.ltb_spec i 0); [lia|].
    destruct (Z.leb_spec (Z.of_nat 512) i); [lia|]. simpl. by rewrite Hv.
  - rewrite Forall_lookup in Hb. by apply (Hb (Z.to_nat i)).
  - apply list_eq. intros k. rewrite slice_lookup by lia.
    destruct k as [|k]; simpl.
    + destruct (decide _); [|lia]. rewrite <- Hv. f_equal. lia.
    + destruct (decide _); [lia|done].
Qed.

Ltac solve_bytes :=
  solve [ repeat first
            [ apply Forall_nil_2
            | apply Forall_cons; split; [lia|]
            | by apply slice_Forall ] ].

(** What a packet emitted from a channel frame looks like. *)
Lemma emits_facts (fr : list Z) (cnt : Z) (p : list Z) (cnt' : Z) :
  channel_frame fr → (cnt = 0 ∨ 6 ≤ cnt) → cnt < 511 →
  emits fr fr cnt p cnt' →
  cnt < cnt' ∧ 6 ≤ cnt' ≤ 512
  ∧ length p = 8%nat
  ∧ Forall (λ v, 0 ≤ v < 256) p
  ∧ channels_represented p = cnt' - cnt
  ∧ decode_packet p = Py.slice fr cnt cnt'
  ∧ (cnt' = 512 → cnt = 505 ∧ p = 2 :: Py.slice fr 505 512)
  ∧ (head p = Some 2 →
     p = 2 :: Py.slice fr cnt (cnt + 7) ∧ length (tail p) = 7%nat
     ∧ cnt' = cnt + 7).
Proof.
  intros Hfr Hc Hlt Hem. pose proof Hfr as [Hlen Hb].
  pose proof (zeros_after_packet_range fr cnt) as Hz.
  destruct Hem as [H0|H505|v Hr Hget|H0 H504 Hpos|H0 H504 Hzero].
  - subst cnt. set (z := zeros_after_packet fr 0) in *.
    assert (Hl : length (Py.slice fr z (z + 6)) = 6%nat)
      by (rewrite slice_length; lia).
    split_and!; try lia; try solve_bytes; try (intros; discriminate).
    + simpl. by rewrite Hl.
    + cbn [channels_represented]. rewrite Hl. lia.
    + cbn [decode_packet]. replace (z + 1 - 1) with z by lia.
      pose proof (zeros_slice fr 0 ltac:(lia)) as Hzs. fold z in Hzs.
      rewrite Z.add_0_l in Hzs. rewrite <- Hzs.
      rewrite slice_app by lia. f_equal. lia.
  - subst cnt.
    assert (Hl : length (Py.slice fr 505 (505 + 7)) = 7%nat)
      by (rewrite slice_length; lia).
    split_and!; try lia; try solve_bytes; try done.
    + simpl. by rewrite Hl.
    + cbn [channels_represented]. rewrite Hl. lia.
  - destruct (channel_frame_getitem fr cnt Hfr) as (v' & Hget' & Hv & Hs);
      [lia|]. rewrite Hget in Hget'. injection Hget' as <-.
    split_and!; try lia; try solve_bytes; try done.
    cbn [channels_represented]. lia.
  - pose proof (zeros_after_packet_fits fr cnt ltac:(lia) Hpos) as Hfit.
    set (z := zeros_after_packet fr cnt) in *.
    assert (Hl : length (Py.slice fr (cnt + z) (cnt + z + 6)) = 6%nat)
      by (rewrite slice_length; lia).
    split_and!; try lia; try solve_bytes; try (intros; discriminate).
    + simpl. by rewrite Hl.
    + cbn [channels_represented]. rewrite Hl. lia.
    + cbn [decode_packet].
      pose proof (zeros_slice fr cnt ltac:(lia)) as Hzs. fold z in Hzs.
      rewrite <- Hzs. rewrite slice_app by lia. f_equal. lia.
  - assert (Hl : length (Py.slice fr cnt (cnt + 7)) = 7%nat)
      by (rewrite slice_length; lia).
    split_and!; try lia; try solve_bytes; try done.
    + simpl. by rewrite Hl.
    + cbn [channels_represented]. rewrite Hl. lia.
Qed.

Lemma emits_advances (tmp fr : list Z) (cnt : Z) (p : list Z) (cnt' : Z) :
  emits tmp fr cnt p cnt' → cnt + 1 ≤ cnt'.
Proof.
  pose proof (zeros_after_packet_range tmp cnt).
  destruct 1; lia.
Qed.

(** ** The while loop *)

(** An invariant rule for the loop: [I] holds of cursor and world at every
    test of the loop condition, [E] of the world an exception leaves. *)
Lemma make_frame_loop_rule (tmp : list Z) (I : Z → world → Prop)
    (E : world → Prop) :
  (∀ cnt w, I cnt w → cnt < 511 →
     match make_frame_iter tmp cnt w with
     | (Returned (Some cnt'), w') => cnt < cnt' ∧ I cnt' w'
     | (Returned None, _) => False
     | (Raised _, w') => E w'
     | (OutOfFuel, _) => False
     end) →
  ∀ fuel cnt w, I cnt w → 511 - cnt ≤ Z.of_nat fuel →
     match make_frame_loop fuel tmp cnt w with
     | (Returned c, w') => 511 ≤ c ∧ I c w'
     | (Raised _, w') => E w'
     | (OutOfFuel, _) => False
     end.
Proof.
  intros Hstep fuel. induction fuel as [|fuel IH]; intros cnt w HI Hfuel.
  - simpl. destruct (Z.ltb_spec cnt 511); [lia|]. simpl. split; [lia|done].
  - simpl. destruct (Z.ltb_spec cnt 511) as [Hlt|Hge].
    + unfold mbind, M_bind, bind. specialize (Hstep cnt w HI Hlt).
      destruct (make_frame_iter tmp cnt w) as [[[cnt'|]|e|] w']; try done.
      destruct Hstep as [Hadv HI']. apply IH; [done|lia].
    + simpl. split; [lia|done].
Qed.

Lemma make_frame_loop_fuel (tmp : list Z) (fuel1 fuel2 : nat) (cnt : Z)
    (w : world) :
  511 - cnt ≤ Z.of_nat fuel1 → 511 - cnt ≤ Z.of_nat fuel2 →
  make_frame_loop fuel1 tmp cnt w = make_frame_loop fuel2 tmp cnt w.
Proof.
  revert fuel2 cnt w.
  induction fuel1 as [|fuel1 IH]; intros fuel2 cnt w H1 H2.
  - destruct fuel2; simpl; destruct (Z.ltb_spec cnt 511); try lia; done.
  - destruct fuel2 as [|fuel2]; simpl;
      destruct (Z.ltb_spec cnt 511) as [Hlt|Hge]; try lia; try done.
    unfold mbind, M_bind, bind.
    pose proof (make_frame_iter_cases tmp cnt w) as [_ Hc].
    destruct (make_frame_iter tmp cnt w) as [[[cnt'|]|e|] w']; try done.
    simpl in Hc. destruct Hc as (p & Hem & _). apply emits_advances in Hem.
    apply IH; lia.
Qed.

(** ** Traces of the loop *)

Lemma total_channels_app (l1 l2 : list (Z * list Z)) :
  total_channels (l1 ++ l2) = total_channels l1 + total_channels l2.
Proof. induction l1 as [|x l1 IH]; simpl; lia. Qed.

Lemma decode_app (l1 l2 : list (Z * list Z)) :
  decode (l1 ++ l2) = decode l1 ++ decode l2.
Proof. unfold decode. by rewrite map_app, concat_app. Qed.

Lemma sent_cursor (fr : list Z) (log : list (Z * list Z)) (cnt : Z) :
  channel_frame fr → sent fr log cnt →
  (cnt = 0 ∧ log = []) ∨ 6 ≤ cnt ≤ 512.
Proof.
  intros Hfr Hs. induction Hs as [|log cnt p cnt' Hs IH Hlt Hem]; [by left|].
  right. eapply emits_facts in Hem; [lia|done|lia|done].
Qed.

Lemma sent_facts (fr : list Z) (log : list (Z * list Z)) (cnt : Z) :
  channel_frame fr → sent fr log cnt →
  total_channels log = cnt
  ∧ decode log = take (Z.to_nat cnt) fr
  ∧ Forall (λ ep, ep.1 = 1 ∧ length ep.2 = 8%nat
                  ∧ Forall (λ v, 0 ≤ v < 256) ep.2) log.
Proof.
  intros Hfr Hs. induction Hs as [|log cnt p cnt' Hs IH Hlt Hem].
  - by split_and!.
  - destruct IH as (Ht & Hd & Hl).
    pose proof (sent_cursor _ _ _ Hfr Hs) as Hc.
    eapply emits_facts in Hem as (Hadv & Hr & Hlen & Hby & Hch & Hdec & _);
      [|done|lia|done].
    split_and!.
    + rewrite total_channels_app. simpl. lia.
    + rewrite decode_app, Hd. unfold decode at 1. simpl.
      rewrite app_nil_r, Hdec. symmetry. apply take_slice; [lia|].
      destruct Hfr as [-> _]. lia.
    + apply Forall_app. split; [done|]. by repeat constructor.
Qed.

(** Running the loop on a channel frame: the controller is left alone,
    the fuel is not used up, what reaches the device is a trace of the
    loop body, and only a device fault can cut it short. *)
Lemma make_frame_loop_sent (fuel : nat) (w : world) :
  channel_frame (frame (self w)) → 511 ≤ Z.of_nat fuel →
  self (make_frame_loop fuel (frame (self w)) 0 w).2 = self w
  ∧ ∃ log cnt,
      written (dev (make_frame_loop fuel (frame (self w)) 0 w).2)
      = written (dev w) ++ log
      ∧ sent (frame (self w)) log cnt
      ∧ match (make_frame_loop fuel (frame (self w)) 0 w).1 with
        | Returned c => c = cnt ∧ 511 ≤ c
        | Raised _ => faults (dev w) ≠ []
        | OutOfFuel => False
        end.
Proof.
  intros Hfr Hfuel. set (fr := frame (self w)) in *.
  set (I := λ (cnt : Z) (w1 : world),
         self w1 = self w
         ∧ (faults (dev w) = [] → faults (dev w1) = [])
         ∧ ∃ log, written (dev w1) = written (dev w) ++ log ∧ sent fr log cnt).
  set (E := λ w1 : world,
         self w1 = self w ∧ faults (dev w) ≠ []
         ∧ ∃ log cnt, written (dev w1) = written (dev w) ++ log
                      ∧ sent fr log cnt).
  assert (Hstep : ∀ cnt w1, I cnt w1 → cnt < 511 →
            match make_frame_iter fr cnt w1 with
            | (Returned (Some cnt'), w') => cnt < cnt' ∧ I cnt' w'
            | (Returned None, _) => False
            | (Raised _, w') => E w'
            | (OutOfFuel, _) => False
            end).
  { intros cnt w1 (Hs & Hf & log & Hw & Hsent) Hlt.
    pose proof (make_frame_iter_cases fr cnt w1) as [Hs' Hc].
    destruct (make_frame_iter fr cnt w1) as [[[cnt'|]|e'|] w1']; simpl in *.
    - destruct Hc as (p & Hem & Hw' & Hf'). rewrite Hs in Hem. fold fr in Hem.
      split; [apply emits_advances in Hem; lia|].
      split; [congruence|]. split.
      + intros Hnil. by rewrite Hf', (Hf Hnil).
      + exists (log ++ [(1, p)]). split.
        * by rewrite Hw', Hw, app_assoc.
        * by econstructor.
    - lia.
    - destruct Hc as (Hw' & Hcause). split; [congruence|]. split.
      + intros Hnil. unfold raise_cause in Hcause.
        rewrite Hs in Hcause. fold fr in Hcause.
        rewrite (Hf Hnil) in Hcause. destruct Hfr as [Hlen Hall].
        destruct Hcause as [?|[[_ ?]|[_ ?]]]; [done|done|].
        rewrite Hlen in *. lia.
      + exists log, cnt. split; [congruence|done].
    - done. }
  assert (HI : I 0 w).
  { split; [done|]. split; [done|]. exists []. split.
    - by rewrite app_nil_r.
    - constructor. }
  pose proof (make_frame_loop_rule fr I E Hstep fuel 0 w HI ltac:(lia)) as Hrule.
  destruct (make_frame_loop fuel fr 0 w) as [[c|e|] w']; simpl.
  - destruct Hrule as (Hc & Hs & Hf & log & Hw & Hsent).
    split; [done|]. by exists log, c.
  - destruct Hrule as (Hs & Hf & log & cnt & Hw & Hsent).
    split; [done|]. by exists log, cnt.
  - done.
Qed.

Lemma sent_ends_at_512 (fr : list Z) (log : list (Z * list Z)) :
  channel_frame fr → sent fr log 512 →
  ∃ pre, log = pre ++ [(1, 2 :: Py.slice fr 505 512)]
         ∧ total_channels pre = 505.
Proof.
  intros Hfr Hs. inversion Hs as [|log' cnt p cnt' Hs' Hlt Hem]; subst.
  pose proof (sent_cursor _ _ _ Hfr Hs') as Hc.
  pose proof (sent_facts _ _ _ Hfr Hs') as (Ht & _).
  eapply emits_facts in Hem as (_ & _ & _ & _ & _ & _ & H512 & _);
    [|done|lia|done].
  destruct H512 as [-> ->]; [done|]. by exists log'.
Qed.

Lemma sent_boundary_505 (fr : list Z) (log : list (Z * list Z)) (cnt : Z) :
  channel_frame fr → sent fr log cnt →
  ∀ pre post, log = pre ++ post → total_channels pre = 505 →
              cnt = 505 ∨ cnt = 512.
Proof.
  intros Hfr Hs. induction Hs as [|log cnt p cnt' Hs IH Hlt Hem].
  - intros pre post Heq Ht. symmetry in Heq.
    apply app_eq_nil in Heq as [-> _]. simpl in Ht. lia.
  - intros pre post Heq Ht.
    destruct post as [|x post _] using rev_ind.
    + rewrite app_nil_r in Heq. subst pre.
      assert (Hs' : sent fr (log ++ [(1, p)]) cnt') by (by econstructor).
      apply (sent_facts _ _ _ Hfr) in Hs' as (Ht' & _). lia.
    + rewrite app_assoc in Heq. apply app_inj_tail in Heq as [Heq _].
      destruct (IH pre post Heq Ht) as [H505|H512]; [|lia].
      right. pose proof (zeros_after_packet_range fr cnt).
      destruct Hem; lia.
Qed.

Lemma sent_data_packets (fr : list Z) (log : list (Z * list Z)) (cnt : Z) :
  channel_frame fr → sent fr log cnt →
  ∀ pre ep p post, log = pre ++ (ep, p) :: post → head p = Some 2 →
    p = 2 :: Py.slice fr (total_channels pre) (total_channels pre + 7)
    ∧ length (tail p) = 7%nat.
Proof.
  intros Hfr Hs. induction Hs as [|log cnt p0 cnt' Hs IH Hlt Hem].
  - intros pre ep p post Heq. by destruct pre.
  - intros pre ep p post Heq Hhd.
    destruct post as [|x post _] using rev_ind.
    + apply app_inj_tail in Heq as [-> [= <- <-]].
      pose proof (sent_cursor _ _ _ Hfr Hs) as Hc.
      pose proof (sent_facts _ _ _ Hfr Hs) as (-> & _).
      eapply emits_facts in Hem as (_ & _ & _ & _ & _ & _ & _ & Hdata);
        [|done|lia|done].
      by destruct (Hdata Hhd) as (? & ? & _).
    + change (pre ++ (ep, p) :: post ++ [x])
        with (pre ++ ((ep, p) :: post) ++ [x]) in Heq.
      rewrite app_assoc in Heq. apply app_inj_tail in Heq as [Heq _].
      by apply (IH pre ep p post).
Qed.

Lemma make_frame_unfold (w : world) :
  make_frame w
  = match make_frame_loop make_frame_fuel (frame (self w)) 0 w with
    | (Returned _, w') => (Returned tt, w')
    | (Raised e, w') => (Raised e, w')
    | (OutOfFuel, w') => (OutOfFuel, w')
    end.
Proof. reflexivity. Qed.

Lemma channel_frame_check (fr : list Z) :
  length fr = 512%nat → forallb is_byte fr = true → channel_frame fr.
Proof. intros Hl Hb. split; [done|]. by apply forallb_is_byte. Qed.

(** ** The encoder: what make_frame sends *)

(** C1, as the code has it. On a channel frame and a transport that
    accepts every write, [make_frame] returns; its loop stops with the
    cursor at 511 or at 512, and the packets it sent represent exactly
    that many channels: read by the packet grammar they are channels 1 to
    cursor of the frame.  The cursor stops at 512, with channel 512 sent
    in a last data packet that carries indices 505 to 511, exactly when a
    packet boundary falls on index 505. *)
Theorem make_frame_covers_511_or_512 (w : world) :
  channel_frame (frame (self w)) → faults (dev w) = [] →
  ∃ c w' log,
    make_frame_loop make_frame_fuel (frame (self w)) 0 w = (Returned c, w')
    ∧ make_frame w = (Returned tt, w')
    ∧ written (dev w') = written (dev w) ++ log
    ∧ (c = 511 ∨ c = 512)
    ∧ total_channels log = c
    ∧ decode log = take (Z.to_nat c) (frame (self w))
    ∧ (c = 512 →
       ∃ pre, log = pre ++ [(1, 2 :: Py.slice (frame (self w)) 505 512)]
              ∧ total_channels pre = 505)
    ∧ ((∃ pre post, log = pre ++ post ∧ total_channels pre = 505) → c = 512).
Proof.
  intros Hfr Hf.
  assert (Hfuel : 511 ≤ Z.of_nat make_frame_fuel) by (unfold make_frame_fuel; lia).
  pose proof (make_frame_loop_sent make_frame_fuel w Hfr Hfuel)
    as (Hs & log & cnt & Hw & Hsent & Ho).
  rewrite make_frame_unfold.
  destruct (make_frame_loop make_frame_fuel (frame (self w)) 0 w)
    as [[c|e|] w']; simpl in *; [|done|done].
  destruct Ho as [-> Hge]. exists cnt, w', log.
  pose proof (sent_cursor _ _ _ Hfr Hsent) as Hc.
  pose proof (sent_facts _ _ _ Hfr Hsent) as (Ht & Hd & _).
  split_and!; try done.
  - lia.
  - intros ->. by apply sent_ends_at_512.
  - intros (pre & post & Heq & Hpre).
    destruct (sent_boundary_505 _ _ _ Hfr Hsent pre post Heq Hpre); lia.
Qed.

Lemma make_frame_covers_511_or_512_witness :
  channel_frame (frame (self (world_of frame_all_ones [])))
  ∧ faults (dev (world_of frame_all_ones [])) = []
  ∧ ∃ c w' log,
      make_frame_loop make_frame_fuel frame_all_ones 0
        (world_of frame_all_ones []) = (Returned c, w')
      ∧ make_frame (world_of frame_all_ones []) = (Returned tt, w')
      ∧ written (dev w') = [] ++ log
      ∧ (c = 511 ∨ c = 512)
      ∧ total_channels log = c
      ∧ decode log = take (Z.to_nat c) frame_all_ones
      ∧ (c = 512 →
         ∃ pre, log = pre ++ [(1, 2 :: Py.slice frame_all_ones 505 512)]
                ∧ total_channels pre = 505)
      ∧ ((∃ pre post, log = pre ++ post ∧ total_channels pre = 505) → c = 512).
Proof.
  assert (Hfr : channel_frame frame_all_ones)
    by (apply channel_frame_check; vm_compute; reflexivity).
  split; [exact Hfr|]. split; [reflexivity|].
  exact (make_frame_covers_511_or_512 (world_of frame_all_ones []) Hfr eq_refl).
Defined.

(** C1 as stated fails: with channels 1 and 2 at zero the second packet
    starts at index 8, a packet boundary falls on index 505, and the last
    data packet carries channel 512 (value 9); 512 channels are
    represented, not 511. *)
Lemma make_frame_sends_channel_512 :
  channel_frame frame_two_leading_zeros
  ∧ (make_frame (world_of frame_two_leading_zeros [])).1 = Returned tt
  ∧ total_channels
      (written (dev (make_frame (world_of frame_two_leading_zeros [])).2)) = 512
  ∧ total_channels
      (written (dev (make_frame (world_of frame_two_leading_zeros [])).2)) ≠ 511
  ∧ last (written (dev (make_frame (world_of frame_two_leading_zeros [])).2))
    = Some (1, [2; 1; 1; 1; 1; 1; 1; 9])
  ∧ decode (written (dev (make_frame (world_of frame_two_leading_zeros [])).2))
    = frame_two_leading_zeros.
Proof.
  split; [apply channel_frame_check; vm_compute; reflexivity|].
  split; [vm_compute; reflexivity|].
  split; [vm_compute; reflexivity|].
  split; [vm_compute; discriminate|].
  split; vm_compute; reflexivity.
Qed.

(** C2, as the code has it. Every type-2 packet [make_frame] sends
    carries exactly 7 channel values after the type byte: the values of
    the 7 consecutive channels that start at the cursor, which is the
    number of channels the packets before it represent. *)
Theorem data_packets_carry_seven_values (w : world) :
  channel_frame (frame (self w)) → faults (dev w) = [] →
  ∃ w' log,
    make_frame w = (Returned tt, w')
    ∧ written (dev w') = written (dev w) ++ log
    ∧ ∀ pre ep p post,
        log = pre ++ (ep, p) :: post → head p = Some 2 →
        p = 2 :: Py.slice (frame (self w)) (total_channels pre)
                          (total_channels pre + 7)
        ∧ length (tail p) = 7%nat.
Proof.
  intros Hfr Hf.
  assert (Hfuel : 511 ≤ Z.of_nat make_frame_fuel) by (unfold make_frame_fuel; lia).
  pose proof (make_frame_loop_sent make_frame_fuel w Hfr Hfuel)
    as (Hs & log & cnt & Hw & Hsent & Ho).
  rewrite make_frame_unfold.
  destruct (make_frame_loop make_frame_fuel (frame (self w)) 0 w)
    as [[c|e|] w']; simpl in *; [|done|done].
  exists w', log. split; [done|]. split; [done|].
  by apply (sent_data_packets _ _ _ Hfr Hsent).
Qed.

Lemma data_packets_carry_seven_values_witness :
  channel_frame (frame (self (world_of frame_two_leading_zeros [])))
  ∧ faults (dev (world_of frame_two_leading_zeros [])) = []
  ∧ ∃ w' log,
      make_frame (world_of frame_two_leading_zeros []) = (Returned tt, w')
      ∧ written (dev w') = [] ++ log
      ∧ ∀ pre ep p post,
          log = pre ++ (ep, p) :: post → head p = Some 2 →
          p = 2 :: Py.slice frame_two_leading_zeros (total_channels pre)
                            (total_channels pre + 7)
          ∧ length (tail p) = 7%nat.
Proof.
  assert (Hfr : channel_frame frame_two_leading_zeros)
    by (apply channel_frame_check; vm_compute; reflexivity).
  split; [exact Hfr|]. split; [reflexivity|].
  exact (data_packets_carry_seven_values
           (world_of frame_two_leading_zeros []) Hfr eq_refl).
Defined.

(** C2 as stated fails: on the frame of all ones the second packet is a
    type-2 packet with 7 values after its type byte, not 6. *)
Lemma data_packet_has_seven_values :
  written (dev (make_frame (world_of frame_all_ones [])).2) !! 1%nat
  = Some (1, [2; 1; 1; 1; 1; 1; 1; 1])
  ∧ head [2; 1; 1; 1; 1; 1; 1; 1] = Some 2
  ∧ length (tail [2; 1; 1; 1; 1; 1; 1; 1]) ≠ 6%nat.
Proof.
  split; [vm_compute; reflexivity|]. split; [reflexivity|].
  simpl. discriminate.
Qed.

(** C4. For a frame of 512 values in [0,255], whatever the transport
    does, every payload [make_frame] hands to [dev.write] is 8 bytes long:
    one type byte and 7 more bytes, written to endpoint 1. *)
Theorem make_frame_payloads_are_8_bytes (w : world) :
  length (frame (self w)) = 512%nat →
  Forall (λ v, 0 ≤ v ≤ 255) (frame (self w)) →
  ∃ log,
    written (dev (make_frame w).2) = written (dev w) ++ log
    ∧ Forall (λ ep, ep.1 = 1
                    ∧ length ep.2 = 8%nat
                    ∧ Forall (λ b, 0 ≤ b < 256) ep.2
                    ∧ ∃ ty rest, ep.2 = ty :: rest ∧ length rest = 7%nat) log.
Proof.
  intros Hlen Hall.
  assert (Hfr : channel_frame (frame (self w))).
  { split; [done|]. eapply Forall_impl; [exact Hall|]. simpl. lia. }
  assert (Hfuel : 511 ≤ Z.of_nat make_frame_fuel) by (unfold make_frame_fuel; lia).
  pose proof (make_frame_loop_sent make_frame_fuel w Hfr Hfuel)
    as (_ & log & cnt & Hw & Hsent & _).
  exists log. split.
  - rewrite make_frame_unfold.
    by destruct (make_frame_loop make_frame_fuel (frame (self w)) 0 w)
      as [[c|e|] w'].
  - pose proof (sent_facts _ _ _ Hfr Hsent) as (_ & _ & Hl).
    eapply Forall_impl; [exact Hl|]. intros [ep p] (Hep & Hp & Hb). simpl in *.
    split_and!; try done.
    destruct p as [|ty rest]; [done|]. exists ty, rest. split; [done|].
    simpl in Hp. lia.
Qed.

Lemma make_frame_payloads_are_8_bytes_witness :
  length (frame (self (world_of frame_two_leading_zeros [None; Some USBError])))
  = 512%nat
  ∧ Forall (λ v, 0 ≤ v ≤ 255)
      (frame (self (world_of frame_two_leading_zeros [None; Some USBError])))
  ∧ ∃ log,
      written (dev (make_frame
                      (world_of frame_two_leading_zeros [None; Some USBError])).2)
      = [] ++ log
      ∧ Forall (λ ep, ep.1 = 1
                      ∧ length ep.2 = 8%nat
                      ∧ Forall (λ b, 0 ≤ b < 256) ep.2
                      ∧ ∃ ty rest, ep.2 = ty :: rest ∧ length rest = 7%nat) log.
Proof.
  assert (Hall : Forall (λ v, 0 ≤ v ≤ 255) frame_two_leading_zeros).
  { eapply Forall_impl;
      [apply forallb_is_byte; vm_compute; reflexivity|]. simpl. lia. }
  split; [reflexivity|]. split; [exact Hall|].
  exact (make_frame_payloads_are_8_bytes
           (world_of frame_two_leading_zeros [None; Some USBError])
           eq_refl Hall).
Defined.

Lemma make_frame_iter_advances (tmp : list Z) (cnt : Z) (w1 : world)
    (cnt' : Z) (w1' : world) :
  make_frame_iter tmp cnt w1 = (Returned (Some cnt'), w1') → cnt + 1 ≤ cnt'.
Proof.
  intros Hit. pose proof (make_frame_iter_cases tmp cnt w1) as [_ Hc].
  rewrite Hit in Hc. simpl in Hc. destruct Hc as (p & Hem & _).
  by apply emits_advances in Hem.
Qed.

Lemma make_frame_loop_total (w : world) :
  match make_frame_loop make_frame_fuel (frame (self w)) 0 w with
  | (Returned c, _) => 511 ≤ c ∧ True
  | (Raised _, _) => True
  | (OutOfFuel, _) => False
  end.
Proof.
  apply (make_frame_loop_rule (frame (self w)) (λ _ _, True) (λ _, True));
    [|done|unfold make_frame_fuel; lia].
  intros cnt w1 _ Hlt.
  pose proof (make_frame_iter_cases (frame (self w)) cnt w1) as [_ Hc].
  destruct (make_frame_iter (frame (self w)) cnt w1)
    as [[[cnt'|]|e|] w1'] eqn:Hit; simpl in Hc; try done.
  - split; [|done]. apply make_frame_iter_advances in Hit. lia.
  - lia.
Qed.

Lemma make_frame_not_out_of_fuel (w : world) : (make_frame w).1 ≠ OutOfFuel.
Proof.
  rewrite make_frame_unfold. pose proof (make_frame_loop_total w) as Hrun.
  by destruct (make_frame_loop make_frame_fuel (frame (self w)) 0 w)
    as [[c|e|] w'].
Qed.

(** C8. [make_frame] terminates: every pass of the loop body that goes on
    moves the cursor forward by at least 1, so the loop never uses up its
    511 passes, gives the same result with any larger bound, and when it
    returns the cursor has reached 511.  This holds for every frame and
    every behaviour of the transport, so in particular for every
    512-channel frame. *)
Theorem make_frame_terminates (w : world) :
  (∀ tmp cnt w1 cnt' w1',
     make_frame_iter tmp cnt w1 = (Returned (Some cnt'), w1') → cnt + 1 ≤ cnt')
  ∧ (make_frame w).1 ≠ OutOfFuel
  ∧ (∀ c w', make_frame_loop make_frame_fuel (frame (self w)) 0 w
             = (Returned c, w') → 511 ≤ c)
  ∧ (∀ fuel, (make_frame_fuel ≤ fuel)%nat →
             make_frame_loop fuel (frame (self w)) 0 w
             = make_frame_loop make_frame_fuel (frame (self w)) 0 w).
Proof.
  assert (Hadv : ∀ tmp cnt w1 cnt' w1',
    make_frame_iter tmp cnt w1 = (Returned (Some cnt'), w1') → cnt + 1 ≤ cnt').
  { apply make_frame_iter_advances. }
  pose proof (make_frame_loop_total w) as Hrun.
  split_and!.
  - exact Hadv.
  - apply make_frame_not_out_of_fuel.
  - intros c w' Heq. rewrite Heq in Hrun. tauto.
  - intros fuel Hfuel. apply make_frame_loop_fuel; unfold make_frame_fuel in *; lia.
Qed.

(** C10. [make_frame] leaves the controller as it found it: whether it
    returns or raises, [frame], [prev_frame] and [update_rate_ms] hold the
    values they held before the call. *)
Theorem make_frame_preserves_controller (w : world) :
  frame (self (make_frame w).2) = frame (self w)
  ∧ prev_frame (self (make_frame w).2) = prev_frame (self w)
  ∧ update_rate_ms (self (make_frame w).2) = update_rate_ms (self w).
Proof.
  assert (Hstep : ∀ cnt w1, self w1 = self w → cnt < 511 →
            match make_frame_iter (frame (self w)) cnt w1 with
            | (Returned (Some cnt'), w') => cnt < cnt' ∧ self w' = self w
            | (Returned None, _) => False
            | (Raised _, w') => self w' = self w
            | (OutOfFuel, _) => False
            end).
  { intros cnt w1 Hs Hlt.
    pose proof (make_frame_iter_cases (frame (self w)) cnt w1) as [Hs' Hc].
    destruct (make_frame_iter (frame (self w)) cnt w1)
      as [[[cnt'|]|e|] w1']; simpl in *; try congruence.
    - destruct Hc as (p & Hem & _). apply emits_advances in Hem.
      split; [lia|congruence].
    - lia. }
  assert (Hself : self (make_frame w).2 = self w).
  { rewrite make_frame_unfold.
    pose proof (make_frame_loop_rule (frame (self w))
                  (λ _ w1, self w1 = self w) (λ w1, self w1 = self w)
                  Hstep make_frame_fuel 0 w eq_refl
                  ltac:(unfold make_frame_fuel; lia)) as Hrun.
    destruct (make_frame_loop make_frame_fuel (frame (self w)) 0 w)
      as [[c|e|] w']; simpl; tauto. }
  by rewrite Hself.
Qed.

(** ** set_channel *)

(** C9. [set_channel] has no bounds check of its own and writes index
    [channel - 1]: on a 512-channel frame every channel from 1 to 512
    updates its own slot, and channel 0 does not fail but updates index
    511, the slot of channel 512. *)
Theorem set_channel_unguarded (w : world) (value : Z) :
  length (frame (self w)) = 512%nat →
  (∀ channel, 1 ≤ channel ≤ 512 →
     set_channel channel value w
     = (Returned tt,
        mkWorld (mkController (update_rate_ms (self w))
                   (<[Z.to_nat (channel - 1) := value]> (frame (self w)))
                   (prev_frame (self w)))
                (dev w) (stdout w)))
  ∧ set_channel 0 value w
    = (Returned tt,
       mkWorld (mkController (update_rate_ms (self w))
                  (<[511%nat := value]> (frame (self w)))
                  (prev_frame (self w)))
               (dev w) (stdout w))
  ∧ set_channel 0 value w = set_channel 512 value w
  ∧ <[511%nat := value]> (frame (self w)) !! 511%nat = Some value.
Proof.
  intros Hlen.
  assert (Hin : ∀ channel, 1 ≤ channel ≤ 512 →
     set_channel channel value w
     = (Returned tt,
        mkWorld (mkController (update_rate_ms (self w))
                   (<[Z.to_nat (channel - 1) := value]> (frame (self w)))
                   (prev_frame (self w)))
                (dev w) (stdout w))).
  { intros channel Hc.
    unfold set_channel, mbind, M_bind, bind, self_frame, Py.setitem, Py.index.
    rewrite Hlen.
    destruct (Z.ltb_spec (channel - 1) 0); [lia|].
    destruct (Z.ltb_spec (channel - 1) 0); [lia|].
    destruct (Z.leb_spec (Z.of_nat 512) (channel - 1)); [lia|]. reflexivity. }
  assert (H0 : set_channel 0 value w
    = (Returned tt,
       mkWorld (mkController (update_rate_ms (self w))
                  (<[511%nat := value]> (frame (self w)))
                  (prev_frame (self w)))
               (dev w) (stdout w))).
  { unfold set_channel, mbind, M_bind, bind, self_frame, Py.setitem, Py.index.
    rewrite Hlen. reflexivity. }
  split_and!.
  - exact Hin.
  - exact H0.
  - rewrite H0, (Hin 512) by lia. reflexivity.
  - apply list_lookup_insert_eq. lia.
Qed.

Lemma set_channel_unguarded_witness :
  length (frame (self (world_of frame_all_ones []))) = 512%nat
  ∧ set_channel 0 42 (world_of frame_all_ones [])
    = (Returned tt,
       mkWorld (mkController 0 (<[511%nat := 42]> frame_all_ones)
                  (replicate 512 0))
               (mkDevice [] []) [])
  ∧ set_channel 0 42 (world_of frame_all_ones [])
    = set_channel 512 42 (world_of frame_all_ones []).
Proof.
  split; [reflexivity|].
  destruct (set_channel_unguarded (world_of frame_all_ones []) 42 eq_refl)
    as (_ & H0 & H512 & _).
  split; [exact H0|exact H512].
Defined.

(** Python itself rejects a subscript outside the list. *)
Example set_channel_out_of_range :
  (set_channel 513 42 (world_of frame_all_ones [])).1 = Raised IndexError
  ∧ (set_channel (-512) 42 (world_of frame_all_ones [])).1 = Raised IndexError
  ∧ (set_channel (-511) 42 (world_of frame_all_ones [])).1 = Returned tt.
Proof. vm_compute. by split_and!. Qed.

(** ** The animation handler *)

Section HandlerProperties.
Context `{Collaborators}.

Lemma linspace_length (num : Z) :
  1 < num → Z.of_nat (length (linspace 0 1 num)) = num.
Proof.
  intros Hn. unfold linspace. destruct (Z.eqb_spec num 1); [lia|].
  rewrite length_map, length_seqZ. lia.
Qed.

Lemma linspace_lookup (num i : Z) :
  1 < num → 0 ≤ i < num →
  linspace 0 1 num !! Z.to_nat i
  = Some (Qc_of_Z i / Qc_of_Z (num - 1))%Qc.
Proof.
  intros Hn Hi. unfold linspace. destruct (Z.eqb_spec num 1); [lia|].
  rewrite list_lookup_fmap, lookup_seqZ_lt by lia. simpl.
  rewrite Z2Nat.id, Z.add_0_l by lia. f_equal. unfold Qcdiv. ring.
Qed.

Lemma generate_animation_nonempty (start final : Color) (duration : Qc)
    (ease_name : option string) (sequence : list Color) :
  generate_animation start final duration ease_name = inr sequence →
  sequence ≠ [].
Proof.
  unfold generate_animation. destruct ease_name as [name|]; [|done].
  destruct (eases !! name) as [ease|]; [|done].
  destruct (Z.leb_spec (step_count duration) 0) as [Hle|Hgt].
  { by intros [= <-]. }
  destruct (Z.eqb_spec (step_count duration) 1) as [H1|H1].
  { by intros [= <-]. }
  intros [= <-] Hnil. apply (f_equal length) in Hnil.
  rewrite length_map in Hnil.
  assert (Hsteps : 1 < step_count duration) by lia.
  pose proof (linspace_length (step_count duration) Hsteps) as Hl.
  rewrite Hnil in Hl. simpl in Hl. lia.
Qed.

Lemma set_led_cases (color : Color) (st : handler_state) :
  current_color (set_led color st).2 = current_color st
  ∧ (set_led color st).1 ≠ OutOfFuel.
Proof.
  unfold set_led.
  destruct ((set_channel 1 (r color);; set_channel 2 (g color);;
             set_channel 3 (b color);; make_frame) (controller st))
    as [[[]|e|] w'] eqn:Hrun; simpl; split; try done.
  exfalso. revert Hrun. unfold bind.
  destruct (set_channel 1 (r color) (controller st)) as [[[]|e1|] w1] eqn:H1;
    [|done|].
  - destruct (set_channel 2 (g color) w1) as [[[]|e2|] w2] eqn:H2; [|done|].
    + destruct (set_channel 3 (b color) w2) as [[[]|e3|] w3] eqn:H3; [|done|].
      * intros Hmf. pose proof (make_frame_not_out_of_fuel w3) as Hno.
        by rewrite Hmf in Hno.
      * revert H3. unfold set_channel, mbind, M_bind, bind, self_frame.
        by destruct (Py.setitem _ _ _).
    + revert H2. unfold set_channel, mbind, M_bind, bind, self_frame.
      by destruct (Py.setitem _ _ _).
  - revert H1. unfold set_channel, mbind, M_bind, bind, self_frame.
    by destruct (Py.setitem _ _ _).
Qed.

Lemma play_animation_cases (sequence : list Color) (st : handler_state) :
  current_color (play_animation sequence st).2 = current_color st
  ∧ (play_animation sequence st).1 ≠ OutOfFuel.
Proof.
  revert st. induction sequence as [|color rest IH]; intros st; simpl.
  - done.
  - unfold bind. pose proof (set_led_cases color st) as [Hc Hf].
    destruct (set_led color st) as [[[]|e|] st1]; simpl in *; try done.
    destruct (IH st1) as [Hc' Hf']. split; [congruence|done].
Qed.

(** C5. With a registered ease name, [generate_animation] is governed
    by the step count floor(FPS * d / 1000): a count of 0 or less gives
    exactly [final], a count of 1 gives exactly [start; final], and a
    larger count gives that many colours, the i-th being
    start + (final - start) * ease(t_i) where t_i = i / (count - 1);
    the samples start at 0, end at 1 and are evenly spaced.  Component
    by component the i-th colour is the start component plus the signed
    difference scaled by ease(t_i), brought into [0,255]. *)
Theorem generate_animation_by_step_count (start final : Color)
    (duration : Qc) (name : string) (ease : Qc → Qc) :
  eases !! name = Some ease →
  step_count duration = Qfloor (FPS * duration / Qc_of_Z 1000)%Qc
  ∧ (step_count duration ≤ 0 →
     generate_animation start final duration (Some name) = inr [final])
  ∧ (step_count duration = 1 →
     generate_animation start final duration (Some name)
     = inr [start; final])
  ∧ (1 < step_count duration →
     ∃ sequence,
       generate_animation start final duration (Some name) = inr sequence
       ∧ Z.of_nat (length sequence) = step_count duration
       ∧ (∀ i, 0 ≤ i < step_count duration →
            sequence !! Z.to_nat i
            = Some (color_add start
                      (color_mul (color_sub final start)
                         (ease (Qc_of_Z i / Qc_of_Z (step_count duration - 1))%Qc))))
       ∧ (∀ i, 0 ≤ i < step_count duration →
            ∃ c, sequence !! Z.to_nat i = Some c
                 ∧ r c = clamp (r start
                                + to_component
                                    (Qc_of_Z (r final - r start)
                                     * ease (Qc_of_Z i
                                             / Qc_of_Z (step_count duration - 1)))%Qc)
                 ∧ g c = clamp (g start
                                + to_component
                                    (Qc_of_Z (g final - g start)
                                     * ease (Qc_of_Z i
                                             / Qc_of_Z (step_count duration - 1)))%Qc)
                 ∧ b c = clamp (b start
                                + to_component
                                    (Qc_of_Z (b final - b start)
                                     * ease (Qc_of_Z i
                                             / Qc_of_Z (step_count duration - 1)))%Qc))
       ∧ (Qc_of_Z 0 / Qc_of_Z (step_count duration - 1))%Qc = 0%Qc
       ∧ (Qc_of_Z (step_count duration - 1)
          / Qc_of_Z (step_count duration - 1))%Qc = 1%Qc
       ∧ (∀ i, (Qc_of_Z (i + 1) / Qc_of_Z (step_count duration - 1)
                - Qc_of_Z i / Qc_of_Z (step_count duration - 1))%Qc
               = (1 / Qc_of_Z (step_count duration - 1))%Qc)).
Proof.
  intros Hease. split; [reflexivity|].
  unfold generate_animation. rewrite Hease. cbv zeta.
  split_and!.
  - intros Hle. by destruct (Z.leb_spec (step_count duration) 0); [|lia].
  - intros ->. reflexivity.
  - intros Hgt.
    destruct (Z.leb_spec (step_count duration) 0); [lia|].
    destruct (Z.eqb_spec (step_count duration) 1); [lia|].
    eexists. split; [reflexivity|]. split_and!.
    + rewrite length_map. by apply linspace_length.
    + intros i Hi. rewrite list_lookup_fmap, linspace_lookup by lia.
      reflexivity.
    + intros i Hi. eexists. split.
      * rewrite list_lookup_fmap, linspace_lookup by lia. reflexivity.
      * by split_and!.
    + unfold Qcdiv. rewrite Z2Qc_inj_0. ring.
    + apply Qcmult_inv_r. rewrite <- Z2Qc_inj_0.
      intros Heq%Z2Qc_inj. lia.
    + intros i. rewrite Z2Qc_inj_add, Z2Qc_inj_1. unfold Qcdiv. ring.
Qed.

(** C6. [generate_animation] fails with an invalid-request error whose
    cause tells a missing ease from an unknown one: no ease name gives
    the type-mismatch cause on the ease, a name that is not registered
    (the empty string too, when it is not registered) gives the
    unknown-ease cause; the two causes differ, and both the outer kind
    and the inner cause can be read back from the error. *)
Theorem generate_animation_ease_errors (start final : Color) (duration : Qc) :
  generate_animation start final duration None
  = inl (InvalidRequest (TypeMismatch "ease"))
  ∧ (∀ name, eases !! name = None →
       generate_animation start final duration (Some name)
       = inl (InvalidRequest UnknownEase))
  ∧ (eases !! "" = None →
       generate_animation start final duration (Some "")
       = inl (InvalidRequest UnknownEase))
  ∧ InvalidRequest (TypeMismatch "ease") ≠ InvalidRequest UnknownEase
  ∧ (∀ c, kind_of (InvalidRequest c) = KInvalidRequest
          ∧ cause_of (InvalidRequest c) = Some c)
  ∧ (∀ ease_name e,
       generate_animation start final duration ease_name = inl e →
       kind_of e = KInvalidRequest
       ∧ (cause_of e = Some (TypeMismatch "ease") ↔ ease_name = None)
       ∧ (cause_of e = Some UnknownEase
          ↔ ∃ name, ease_name = Some name ∧ eases !! name = None)).
Proof.
  assert (Hunk : ∀ name, eases !! name = None →
       generate_animation start final duration (Some name)
       = inl (InvalidRequest UnknownEase)).
  { intros name Hn. unfold generate_animation. by rewrite Hn. }
  split_and!; try done.
  - by apply Hunk.
  - intros ease_name e. unfold generate_animation.
    destruct ease_name as [name|].
    + destruct (eases !! name) as [ease|] eqn:Hn.
      * cbv zeta. destruct (_ <=? _); [done|]. by destruct (_ =? _).
      * intros [= <-]. simpl. split_and!; try done.
        split; [by exists name|done].
    + intros [= <-]. simpl. split_and!; try done.
      split; [done|]. by intros (name & ? & _).
Qed.

(** C7. [animate] changes [current_color] only when the whole call
    succeeds, and then to the last element of the generated sequence:
    a call that returns has validated the request, generated a
    sequence from the old colour and played it, and holds that
    sequence's last colour; a call that raises, in validation,
    generation or playback, holds the colour it started with. *)
Theorem animate_updates_color_on_success_only (request : gmap string json)
    (st : handler_state) :
  match animate request st with
  | (Returned _, st') =>
      ∃ color duration name sequence,
        request_color request = inr color
        ∧ request_duration request = inr duration
        ∧ request_ease request = inr name
        ∧ generate_animation (current_color st) color duration (Some name)
          = inr sequence
        ∧ (play_animation sequence st).1 = Returned tt
        ∧ last sequence = Some (current_color st')
  | (Raised _, st') => current_color st' = current_color st
  | (OutOfFuel, _) => False
  end.
Proof.
  unfold animate, mbind, HM_bind, bind, get_current_color, lift, raise, ret.
  destruct (request_color request) as [e|color]; [done|].
  destruct (request_duration request) as [e|duration]; [done|].
  destruct (request_ease request) as [e|name]; [done|].
  cbv beta iota.
  destruct (generate_animation (current_color st) color duration (Some name))
    as [e|sequence] eqn:Hgen; [done|].
  pose proof (play_animation_cases sequence st) as [Hc Hf].
  destruct (play_animation sequence st) as [[[]|e|] st1] eqn:Hplay;
    cbn [fst snd] in *; try done.
  destruct (last sequence) as [c|] eqn:Hlast.
  - unfold set_current_color. cbv beta iota.
    exists color, duration, name, sequence. rewrite Hplay. by split_and!.
  - apply last_None in Hlast.
    by apply generate_animation_nonempty in Hgen.
Qed.

End HandlerProperties.

Lemma generate_animation_by_step_count_witness :
  @eases example_collaborators !! "linear" = Some (λ t : Qc, t)
  ∧ @step_count example_collaborators (Qc_of_Z 300) = 9
  ∧ ∃ sequence,
      @generate_animation example_collaborators
        START_COLOR FINAL_COLOR (Qc_of_Z 300) (Some "linear")
      = inr sequence
      ∧ Z.of_nat (length sequence) = 9
      ∧ (∀ i, 0 ≤ i < 9 →
           sequence !! Z.to_nat i
           = Some (color_add START_COLOR
                     (@color_mul example_collaborators
                        (color_sub FINAL_COLOR START_COLOR)
                        (Qc_of_Z i / Qc_of_Z 8)%Qc)))
      ∧ (∀ i, 0 ≤ i < 9 →
           ∃ c, sequence !! Z.to_nat i = Some c
                ∧ r c = clamp (201 + @to_component example_collaborators
                                       (Qc_of_Z (193 - 201)
                                        * (Qc_of_Z i / Qc_of_Z 8))%Qc)).
Proof.
  assert (Hlin : @eases example_collaborators !! "linear" = Some (λ t : Qc, t))
    by (vm_compute; reflexivity).
  assert (H9 : @step_count example_collaborators (Qc_of_Z 300) = 9)
    by (vm_compute; reflexivity).
  split; [exact Hlin|]. split; [exact H9|].
  destruct (@generate_animation_by_step_count example_collaborators
              START_COLOR FINAL_COLOR (Qc_of_Z 300)
              "linear" (λ t : Qc, t) Hlin) as (_ & _ & _ & Hmany).
  rewrite H9 in Hmany.
  destruct (Hmany ltac:(lia)) as (sequence & Hgen & Hlen & Hnth & Hcomp & _).
  exists sequence. split; [exact Hgen|]. split; [exact Hlen|].
  split; [exact Hnth|].
  intros i Hi. destruct (Hcomp i Hi) as (c & Hc & Hr & _).
  exists c. split; [exact Hc|exact Hr].
Defined.

(** The handler's tests, run on the model at 30 frames per second: the
    dimming from [START_COLOR] to [FINAL_COLOR] over 300 ms with the
    linear curve is [DEFAULT_ANIMATION], one unit down per step; it is
    not constant; another curve gives another sequence; equal colours
    give a constant one. *)
Example generate_animation_on_the_tests_colours :
  @generate_animation example_collaborators
    START_COLOR FINAL_COLOR (Qc_of_Z 300) (Some "linear")
  = inr DEFAULT_ANIMATION
  ∧ DEFAULT_ANIMATION !! 0%nat ≠ DEFAULT_ANIMATION !! 8%nat
  ∧ @generate_animation example_collaborators
      START_COLOR FINAL_COLOR (Qc_of_Z 300) (Some "easeInQuad")
    ≠ @generate_animation example_collaborators
        START_COLOR FINAL_COLOR (Qc_of_Z 300) (Some "linear")
  ∧ @generate_animation example_collaborators
      START_COLOR START_COLOR (Qc_of_Z 300) (Some "linear")
    = inr (replicate 9 START_COLOR).
Proof.
  split; [vm_compute; reflexivity|]. split; [vm_compute; discriminate|].
  split; [vm_compute; discriminate|]. vm_compute. reflexivity.
Qed.

Example generate_animation_examples :
  @generate_animation example_collaborators
    (mkColor 10 20 30) (mkColor 201 117 28) (Qc_of_Z 33) (Some "linear")
  = inr [mkColor 201 117 28]
  ∧ @generate_animation example_collaborators
      (mkColor 10 20 30) (mkColor 201 117 28) (Qc_of_Z 34) (Some "linear")
    = inr [mkColor 10 20 30; mkColor 201 117 28]
  ∧ @generate_animation example_collaborators
      (mkColor 10 20 30) (mkColor 201 117 28) (Qc_of_Z 100) (Some "linear")
    = inr [mkColor 10 20 30; mkColor 105 68 29; mkColor 201 117 28].
Proof. vm_compute. by split_and!. Qed.

Lemma generate_animation_ease_errors_witness :
  @eases example_collaborators !! "" = None
  ∧ @generate_animation example_collaborators
      (mkColor 10 20 30) (mkColor 201 117 28) (Qc_of_Z 300) (Some "")
    = inl (InvalidRequest UnknownEase)
  ∧ @generate_animation example_collaborators
      (mkColor 10 20 30) (mkColor 201 117 28) (Qc_of_Z 300) None
    = inl (InvalidRequest (TypeMismatch "ease")).
Proof.
  assert (Hnone : @eases example_collaborators !! "" = None)
    by (vm_compute; reflexivity).
  destruct (@generate_animation_ease_errors example_collaborators
              (mkColor 10 20 30) (mkColor 201 117 28) (Qc_of_Z 300))
    as (Hmissing & _ & Hempty & _).
  split; [exact Hnone|]. split; [exact (Hempty Hnone)|exact Hmissing].
Defined.

(** A request that succeeds moves [current_color] to the last colour
    played; the same request on a transport that fails at the fourth
    write raises a set-led failure and keeps the old colour, although
    three payloads and a new frame are already out. *)
Example animate_examples :
  (let r := @animate example_collaborators example_request (example_handler []) in
   r.1 = Returned tt ∧ current_color r.2 = mkColor 201 117 28)
  ∧ (let r := @animate example_collaborators example_request
                (example_handler [None; None; None; Some USBError]) in
     r.1 = Raised (SetLedFailure USBError)
     ∧ current_color r.2 = mkColor 10 20 30
     ∧ length (written (dev (controller r.2))) = 3%nat
     ∧ take 3 (frame (self (controller r.2))) = [33; 32; 29])
  ∧ (let r := @animate example_collaborators (delete "ease" example_request)
                (example_handler []) in
     r.1 = Raised (InvalidRequest (MissingKey "ease"))
     ∧ current_color r.2 = mkColor 10 20 30).
Proof. vm_compute. by split_and!. Qed.


(** * Further properties of the controller *)

(** ** The loop body, pass by pass *)

Lemma slice_covers {A} (P : A → Prop) (l : list A) (lo hi : Z) (j : nat) (x : A) :
  0 ≤ lo → lo ≤ Z.of_nat j < hi → l !! j = Some x →
  Forall P (Py.slice l lo hi) → P x.
Proof.
  intros Hlo Hj Hx Hall. rewrite Forall_lookup in Hall.
  apply (Hall (j - Z.to_nat lo)%nat). rewrite slice_lookup by lia.
  destruct (decide _) as [_|Hn]; [|lia]. rewrite <- Hx. f_equal. lia.
Qed.

(** What a pass at cursor [cnt] does is fixed by the frame alone: the line
    it prints, whether its values fit a byte each, the payload, and the
    next cursor. *)
Lemma make_frame_iter_shape (tmp fr : list Z) (cnt : Z) :
  cnt ≤ 511 →
  ∃ line ok p e c',
    (∀ w, frame (self w) = fr →
          make_frame_iter tmp cnt w = sending_pass line ok p e c' w)
    ∧ (ok = true →
       emits tmp fr cnt p c' ∧ Forall (λ v, 0 ≤ v < 256) (tail p))
    ∧ (ok = false →
       (e = OverflowError ∧ ¬ Forall (λ v, 0 ≤ v < 256) fr)
       ∨ (e = IndexError ∧ Z.of_nat (length fr) ≤ cnt)).
Proof.
  intros H511. pose proof (zeros_after_packet_range tmp cnt) as Hzr.
  unfold make_frame_iter, sending_pass.
  destruct (Z.eqb_spec cnt 0) as [H0|H0].
  { exists ("send start chn:" +:+ Py.str (zeros_after_packet tmp cnt + 1)),
      (is_byte (zeros_after_packet tmp cnt + 1)
       && forallb is_byte (Py.slice fr (zeros_after_packet tmp cnt)
                             (zeros_after_packet tmp cnt + 6))),
      (4 :: (zeros_after_packet tmp cnt + 1)
         :: Py.slice fr (zeros_after_packet tmp cnt)
                        (zeros_after_packet tmp cnt + 6)),
      OverflowError, (6 + zeros_after_packet tmp cnt).
    split_and!.
    - intros w Hfr. unfold mbind, M_bind, bind, print, self_frame.
      cbn [self dev stdout]. rewrite Hfr. rewrite send_start_eq. reflexivity.
    - intros [Hb1 Hb2]%andb_prop. split; [by apply emits_start|].
      simpl. apply Forall_cons. split; [lia|]. by apply forallb_is_byte.
    - intros [Hb|Hb]%andb_false_iff; left; (split; [done|]).
      + assert (is_byte (zeros_after_packet tmp cnt + 1) = true)
          by (apply is_byte_spec; lia). congruence.
      + by eapply slice_not_bytes. }
  destruct (Z.ltb_spec 511 cnt) as [Hgt|_]; [lia|].
  destruct (Z.ltb_spec 504 cnt) as [H504|H504].
  - destruct (Z.eqb_spec (512 - cnt) 7) as [H7|H7].
    + exists ("send data ch :" +:+ Py.str (cnt + 1)),
        (forallb is_byte (Py.slice fr cnt (cnt + 7))),
        (2 :: Py.slice fr cnt (cnt + 7)), OverflowError, (cnt + 7).
      split_and!.
      * intros w Hfr. unfold mbind, M_bind, bind, print, self_frame.
        cbn [self dev stdout]. rewrite Hfr. rewrite send_data_eq. reflexivity.
      * intros Hb. split; [apply emits_last7; lia|].
        simpl. by apply forallb_is_byte.
      * intros Hb. left. split; [done|]. by eapply slice_not_bytes.
    + pose proof (getitem_cases fr cnt ltac:(lia)) as Hgc.
      destruct (Py.getitem fr cnt) as [e|v] eqn:Hget.
      * exists ("send single ch:" +:+ Py.str (cnt + 1)), false, [], e,
          (cnt + 1). split_and!.
        -- intros w Hfr. rewrite single_branch_assoc.
           unfold mbind, M_bind, bind, print, self_frame.
           cbn [self dev stdout]. rewrite Hfr. rewrite Hget. reflexivity.
        -- done.
        -- intros _. right. done.
      * exists ("send single ch:" +:+ Py.str (cnt + 1)), (is_byte v),
          [3; v; 0; 0; 0; 0; 0; 0], OverflowError, (cnt + 1).
        split_and!.
        -- intros w Hfr. rewrite single_branch_assoc.
           unfold mbind, M_bind, bind, print, self_frame.
           cbn [self dev stdout]. rewrite Hfr. rewrite Hget. cbn [lift ret].
           rewrite send_single_eq. reflexivity.
        -- intros Hb. split; [apply emits_single; [lia|done]|].
           apply is_byte_spec in Hb. simpl.
           repeat (apply Forall_cons; split; [lia|]). apply Forall_nil_2.
        -- intros Hb. left. split; [done|]. intros Hall.
           rewrite Forall_lookup in Hall. apply Hall in Hgc.
           apply is_byte_spec in Hgc. congruence.
  - destruct (Z.ltb_spec 0 (zeros_after_packet tmp cnt)) as [Hz|Hz].
    + exists ("send skip ch:" +:+ Py.str (cnt + zeros_after_packet tmp cnt + 1)),
        (is_byte (zeros_after_packet tmp cnt)
         && forallb is_byte
              (Py.slice fr (cnt + zeros_after_packet tmp cnt)
                 (cnt + zeros_after_packet tmp cnt + 6))),
        (5 :: zeros_after_packet tmp cnt
           :: Py.slice fr (cnt + zeros_after_packet tmp cnt)
                          (cnt + zeros_after_packet tmp cnt + 6)),
        OverflowError, (cnt + (zeros_after_packet tmp cnt + 6)).
      split_and!.
      * intros w Hfr. unfold mbind, M_bind, bind, print, self_frame.
        cbn [self dev stdout]. rewrite Hfr. rewrite send_data_skip_eq. reflexivity.
      * intros [Hb1 Hb2]%andb_prop. split; [by apply emits_skip|].
        simpl. apply Forall_cons. split; [lia|]. by apply forallb_is_byte.
      * intros [Hb|Hb]%andb_false_iff; left; (split; [done|]).
        -- assert (is_byte (zeros_after_packet tmp cnt) = true)
             by (apply is_byte_spec; lia). congruence.
        -- by eapply slice_not_bytes.
    + exists ("send data ch:" +:+ Py.str (cnt + 1)),
        (forallb is_byte (Py.slice fr cnt (cnt + 7))),
        (2 :: Py.slice fr cnt (cnt + 7)), OverflowError, (cnt + 7).
      split_and!.
      * intros w Hfr. unfold mbind, M_bind, bind, print, self_frame.
        cbn [self dev stdout]. rewrite Hfr. rewrite send_data_eq. reflexivity.
      * intros Hb. split; [apply emits_data; lia|].
        simpl. by apply forallb_is_byte.
      * intros Hb. left. split; [done|]. by eapply slice_not_bytes.
Qed.

Lemma sending_pass_rejected (line : string) (p : list Z) (e : exn) (c' : Z)
    (w : world) :
  sending_pass line false p e c' w
  = (Raised e, mkWorld (self w) (dev w) (stdout w ++ [line])).
Proof. reflexivity. Qed.

Lemma sending_pass_accepted (line : string) (p : list Z) (e : exn) (c' : Z)
    (w : world) (rest : list (option exn)) :
  faults (dev w) = [] ∨ faults (dev w) = None :: rest →
  sending_pass line true p e c' w
  = (Returned (Some c'),
     mkWorld (self w)
             (mkDevice (written (dev w) ++ [(1, p)]) (tail (faults (dev w))))
             (stdout w ++ [line])).
Proof.
  intros Hf. unfold sending_pass, bind, print, dev_write. cbn [self dev stdout].
  by destruct Hf as [-> | ->].
Qed.

Lemma sending_pass_fault (line : string) (p : list Z) (e e' : exn) (c' : Z)
    (w : world) (rest : list (option exn)) :
  faults (dev w) = Some e' :: rest →
  sending_pass line true p e c' w
  = (Raised e',
     mkWorld (self w) (mkDevice (written (dev w)) rest) (stdout w ++ [line])).
Proof.
  intros Hf. unfold sending_pass, bind, print, dev_write. cbn [self dev stdout].
  by rewrite Hf.
Qed.

(** On a channel frame every pass reaches the device. *)
Lemma make_frame_iter_channel_frame (fr : list Z) (cnt : Z) :
  channel_frame fr → cnt < 511 →
  ∃ line p e c',
    emits fr fr cnt p c'
    ∧ ∀ w, frame (self w) = fr →
           make_frame_iter fr cnt w = sending_pass line true p e c' w.
Proof.
  intros [Hlen Hall] Hlt.
  destruct (make_frame_iter_shape fr fr cnt ltac:(lia))
    as (line & ok & p & e & c' & Heq & Hok & Hbad).
  destruct ok.
  - exists line, p, e, c'. split; [by apply Hok|done].
  - destruct (Hbad eq_refl) as [[_ Hn]|[_ Hn]]; [done|]. rewrite Hlen in Hn. lia.
Qed.

(** The packets of a frame are fixed by the frame: on a transport that
    accepts every write the loop appends the same list [L] whatever else
    the world holds, and on a transport whose [n+1]-th write raises [e] it
    appends the first [n] of them and raises [e]. *)
Lemma make_frame_loop_packets (fuel : nat) (fr : list Z) (cnt : Z) :
  channel_frame fr → cnt = 0 ∨ 6 ≤ cnt → 511 - cnt ≤ Z.of_nat fuel →
  ∃ L c,
    511 ≤ c
    ∧ (∀ w, frame (self w) = fr → faults (dev w) = [] →
         (make_frame_loop fuel fr cnt w).1 = Returned c
         ∧ self (make_frame_loop fuel fr cnt w).2 = self w
         ∧ written (dev (make_frame_loop fuel fr cnt w).2) = written (dev w) ++ L
         ∧ faults (dev (make_frame_loop fuel fr cnt w).2) = [])
    ∧ (∀ w n e rest,
         frame (self w) = fr →
         faults (dev w) = replicate n None ++ Some e :: rest →
         ((length L ≤ n)%nat →
            (make_frame_loop fuel fr cnt w).1 = Returned c
            ∧ written (dev (make_frame_loop fuel fr cnt w).2)
              = written (dev w) ++ L
            ∧ faults (dev (make_frame_loop fuel fr cnt w).2)
              = replicate (n - length L) None ++ Some e :: rest)
         ∧ ((n < length L)%nat →
            (make_frame_loop fuel fr cnt w).1 = Raised e
            ∧ written (dev (make_frame_loop fuel fr cnt w).2)
              = written (dev w) ++ take n L
            ∧ faults (dev (make_frame_loop fuel fr cnt w).2) = rest)).
Proof.
  intros Hfr. revert cnt.
  induction fuel as [|fuel IH]; intros cnt Hc Hfuel.
  - exists [], cnt. split; [lia|]. simpl.
    destruct (Z.ltb_spec cnt 511); [lia|]. simpl. split.
    + intros w _ Hf. by rewrite app_nil_r.
    + intros w n e rest _ Hf. split; [|simpl; lia].
      intros _. by rewrite app_nil_r, Nat.sub_0_r.
  - destruct (Z.ltb_spec cnt 511) as [Hlt|Hge].
    2:{ exists [], cnt. split; [lia|]. simpl.
        destruct (Z.ltb_spec cnt 511); [lia|]. simpl. split.
        - intros w _ Hf. by rewrite app_nil_r.
        - intros w n e rest _ Hf. split; [|simpl; lia].
          intros _. by rewrite app_nil_r, Nat.sub_0_r. }
    destruct (make_frame_iter_channel_frame fr cnt Hfr Hlt)
      as (line & p & e0 & c' & Hem & Hiter).
    pose proof (emits_facts fr cnt p c' Hfr ltac:(lia) Hlt Hem)
      as (Hadv & Hr & _).
    destruct (IH c' ltac:(lia) ltac:(lia)) as (L & c & Hc511 & Hok & Hscript).
    exists ((1, p) :: L), c. split; [done|].
    assert (Hstep : ∀ w, frame (self w) = fr →
      make_frame_loop (S fuel) fr cnt w
      = match sending_pass line true p e0 c' w with
        | (Returned (Some cnt'), w') => make_frame_loop fuel fr cnt' w'
        | (Returned None, w') => (Returned cnt, w')
        | (Raised e, w') => (Raised e, w')
        | (OutOfFuel, w') => (OutOfFuel, w')
        end).
    { intros w Hw. simpl. destruct (Z.ltb_spec cnt 511); [|lia].
      unfold mbind, M_bind, bind. rewrite (Hiter w Hw).
      by destruct (sending_pass line true p e0 c' w) as [[[?|]|?|] ?]. }
    split.
    + intros w Hw Hf. rewrite (Hstep w Hw).
      rewrite (sending_pass_accepted _ _ _ _ _ []) by auto. rewrite Hf.
      cbn [tail].
      set (w1 := mkWorld (self w) (mkDevice (written (dev w) ++ [(1, p)]) [])
                   (stdout w ++ [line])).
      destruct (Hok w1 Hw eq_refl) as (H1 & H2 & H3 & H4).
      split_and!; try done. rewrite H3. simpl. by rewrite <- app_assoc.
    + intros w n e rest Hw Hf. rewrite (Hstep w Hw).
      destruct n as [|n]; simpl in Hf.
      * rewrite (sending_pass_fault _ _ _ e _ _ rest) by done.
        split; [simpl; lia|]. intros _. simpl. by rewrite app_nil_r.
      * rewrite (sending_pass_accepted _ _ _ _ _
                   (replicate n None ++ Some e :: rest)) by auto.
        rewrite Hf. cbn [tail].
        set (w1 := mkWorld (self w)
                     (mkDevice (written (dev w) ++ [(1, p)])
                        (replicate n None ++ Some e :: rest))
                     (stdout w ++ [line])).
        destruct (Hscript w1 n e rest Hw eq_refl) as [Hle Hgt].
        split.
        -- intros Hlen. simpl in Hlen.
           destruct (Hle ltac:(lia)) as (H1 & H2 & H3).
           split_and!;
             [done | rewrite H2; simpl; by rewrite <- app_assoc | by rewrite H3].
        -- intros Hlen. simpl in Hlen.
           destruct (Hgt ltac:(lia)) as (H1 & H2 & H3).
           split_and!;
             [done | rewrite H2; simpl; by rewrite <- app_assoc | done].
Qed.

Lemma make_frame_world (w : world) :
  (make_frame w).2 = (make_frame_loop make_frame_fuel (frame (self w)) 0 w).2.
Proof.
  rewrite make_frame_unfold.
  by destruct (make_frame_loop make_frame_fuel (frame (self w)) 0 w)
    as [[c|e|] w'].
Qed.

Lemma make_frame_outcome (w : world) :
  (make_frame w).1
  = match (make_frame_loop make_frame_fuel (frame (self w)) 0 w).1 with
    | Returned _ => Returned tt
    | Raised e => Raised e
    | OutOfFuel => OutOfFuel
    end.
Proof.
  rewrite make_frame_unfold.
  by destruct (make_frame_loop make_frame_fuel (frame (self w)) 0 w)
    as [[c|e|] w'].
Qed.

Lemma frame_packets_sent (fr : list Z) :
  channel_frame fr → ∃ c, 511 ≤ c ∧ sent fr (frame_packets fr) c.
Proof.
  intros Hfr. unfold frame_packets. rewrite make_frame_world.
  set (w := mkWorld (mkController 0 fr []) (mkDevice [] []) []).
  assert (Hfuel : 511 ≤ Z.of_nat make_frame_fuel) by (unfold make_frame_fuel; lia).
  pose proof (make_frame_loop_sent make_frame_fuel w Hfr Hfuel)
    as (_ & log & cnt & Hw & Hsent & Ho).
  change (frame (self w)) with fr in *. rewrite Hw. simpl.
  destruct (make_frame_loop make_frame_fuel fr 0 w).1 as [c|e|]; [|done|done].
  destruct Ho as [-> Hge]. by exists cnt.
Qed.

(** [make_frame] in terms of the packets of its frame. *)
Lemma make_frame_packets (fr : list Z) :
  channel_frame fr →
  (∀ w, frame (self w) = fr → faults (dev w) = [] →
     (make_frame w).1 = Returned tt
     ∧ written (dev (make_frame w).2) = written (dev w) ++ frame_packets fr
     ∧ faults (dev (make_frame w).2) = []
     ∧ self (make_frame w).2 = self w)
  ∧ (∀ w n e rest,
       frame (self w) = fr →
       faults (dev w) = replicate n None ++ Some e :: rest →
       ((length (frame_packets fr) ≤ n)%nat →
          (make_frame w).1 = Returned tt
          ∧ written (dev (make_frame w).2) = written (dev w) ++ frame_packets fr
          ∧ faults (dev (make_frame w).2)
            = replicate (n - length (frame_packets fr)) None ++ Some e :: rest)
       ∧ ((n < length (frame_packets fr))%nat →
          (make_frame w).1 = Raised e
          ∧ written (dev (make_frame w).2)
            = written (dev w) ++ take n (frame_packets fr)
          ∧ faults (dev (make_frame w).2) = rest)).
Proof.
  intros Hfr.
  destruct (make_frame_loop_packets make_frame_fuel fr 0 Hfr ltac:(lia)
              ltac:(unfold make_frame_fuel; lia))
    as (L & c & Hc & Hok & Hscript).
  assert (HL : frame_packets fr = L).
  { unfold frame_packets. rewrite make_frame_world.
    set (w := mkWorld (mkController 0 fr []) (mkDevice [] []) []).
    destruct (Hok w eq_refl eq_refl) as (_ & _ & H3 & _). exact H3. }
  rewrite HL. split.
  - intros w Hw Hf. rewrite make_frame_outcome, make_frame_world, Hw.
    destruct (Hok w Hw Hf) as (-> & H2 & H3 & H4). by split_and!.
  - intros w n e rest Hw Hf. rewrite make_frame_outcome, make_frame_world, Hw.
    destruct (Hscript w n e rest Hw Hf) as [Hle Hgt]. split.
    + intros Hn. by destruct (Hle Hn) as (-> & H2 & H3).
    + intros Hn. by destruct (Hgt Hn) as (-> & H2 & H3).
Qed.

(** ** What make_frame sends, frame by frame *)

(** X1. What [make_frame] sends is fixed by the frame alone: on a
    transport that accepts every write it appends the packets of the
    frame, whatever [prev_frame], the update rate, the console and the
    device log hold.  Nothing is remembered between calls, so sending an
    unchanged frame again sends the same packets again. *)
Theorem make_frame_sends_frame_packets (w : world) :
  channel_frame (frame (self w)) → faults (dev w) = [] →
  (make_frame w).1 = Returned tt
  ∧ written (dev (make_frame w).2)
    = written (dev w) ++ frame_packets (frame (self w))
  ∧ ((make_frame;; make_frame) w).1 = Returned tt
  ∧ written (dev ((make_frame;; make_frame) w).2)
    = written (dev w) ++ frame_packets (frame (self w))
                      ++ frame_packets (frame (self w)).
Proof.
  intros Hfr Hf.
  destruct (make_frame_packets _ Hfr) as [Hok _].
  destruct (Hok w eq_refl Hf) as (H1 & H2 & H3 & H4).
  split; [done|]. split; [done|]. unfold bind.
  destruct (make_frame w) as [o w1]. simpl in *. subst o.
  assert (Hw1 : frame (self w1) = frame (self w)) by (by rewrite H4).
  destruct (Hok w1 Hw1 H3) as (H1' & H2' & _).
  split; [done|]. by rewrite H2', H2, <- app_assoc.
Qed.

Lemma make_frame_sends_frame_packets_witness :
  let w := mkWorld (mkController 40 frame_two_leading_zeros [7; 7])
                   (mkDevice [(1, [9])] []) ["earlier output"] in
  channel_frame (frame (self w)) ∧ faults (dev w) = []
  ∧ (make_frame w).1 = Returned tt
  ∧ written (dev (make_frame w).2)
    = [(1, [9])] ++ frame_packets frame_two_leading_zeros
  ∧ written (dev ((make_frame;; make_frame) w).2)
    = [(1, [9])] ++ frame_packets frame_two_leading_zeros
                 ++ frame_packets frame_two_leading_zeros.
Proof.
  intros w.
  assert (Hfr : channel_frame (frame (self w)))
    by (apply channel_frame_check; vm_compute; reflexivity).
  destruct (make_frame_sends_frame_packets w Hfr eq_refl) as (H1 & H2 & _ & H4).
  split; [exact Hfr|]. split; [reflexivity|]. split; [exact H1|].
  split; [exact H2|exact H4].
Defined.

(** X2. A transport failure is passed on, not retried: when the first
    [n] writes are accepted and the next one raises [e], [make_frame]
    raises [e] with exactly the first [n] packets of the frame on the
    wire, provided the frame has more than [n] packets; when it has at
    most [n], the frame goes out whole and the fault is still pending. *)
Theorem make_frame_stops_at_first_fault (w : world) (n : nat) (e : exn)
    (rest : list (option exn)) :
  channel_frame (frame (self w)) →
  faults (dev w) = replicate n None ++ Some e :: rest →
  ((n < length (frame_packets (frame (self w))))%nat →
     (make_frame w).1 = Raised e
     ∧ written (dev (make_frame w).2)
       = written (dev w) ++ take n (frame_packets (frame (self w)))
     ∧ faults (dev (make_frame w).2) = rest)
  ∧ ((length (frame_packets (frame (self w))) ≤ n)%nat →
     (make_frame w).1 = Returned tt
     ∧ written (dev (make_frame w).2)
       = written (dev w) ++ frame_packets (frame (self w))
     ∧ faults (dev (make_frame w).2)
       = replicate (n - length (frame_packets (frame (self w)))) None
         ++ Some e :: rest).
Proof.
  intros Hfr Hf.
  destruct (make_frame_packets _ Hfr) as [_ Hscript].
  destruct (Hscript w n e rest eq_refl Hf) as [Hle Hgt]. by split.
Qed.

Lemma make_frame_stops_at_first_fault_witness :
  let w := world_of frame_all_ones [None; None; Some USBError; None] in
  channel_frame (frame (self w))
  ∧ faults (dev w) = replicate 2 None ++ Some USBError :: [None]
  ∧ (2 < length (frame_packets frame_all_ones))%nat
  ∧ (make_frame w).1 = Raised USBError
  ∧ written (dev (make_frame w).2) = take 2 (frame_packets frame_all_ones)
  ∧ faults (dev (make_frame w).2) = [None].
Proof.
  intros w.
  assert (Hfr : channel_frame (frame (self w)))
    by (apply channel_frame_check; vm_compute; reflexivity).
  assert (Hn : (2 < length (frame_packets frame_all_ones))%nat)
    by (vm_compute; lia).
  destruct (make_frame_stops_at_first_fault w 2 USBError [None] Hfr eq_refl)
    as [Hraise _].
  destruct (Hraise Hn) as (H1 & H2 & H3).
  split; [exact Hfr|]. split; [reflexivity|]. split; [exact Hn|].
  split; [exact H1|]. split; [exact H2|exact H3].
Defined.

Lemma emits_step (fr : list Z) (cnt : Z) (p : list Z) (c' : Z) :
  channel_frame fr → cnt = 0 ∨ 6 ≤ cnt → cnt < 511 → emits fr fr cnt p c' →
  (cnt = 0 ∧ 6 ≤ c' ≤ 260 ∧ head p = Some 4)
  ∨ (6 ≤ cnt ≤ 504 ∧ cnt + 7 ≤ c' ≤ 511 ∧ (head p = Some 2 ∨ head p = Some 5))
  ∨ (cnt = 505 ∧ c' = 512 ∧ head p = Some 2)
  ∨ (505 < cnt ∧ c' = cnt + 1 ∧ head p = Some 3).
Proof.
  intros Hfr Hc Hlt Hem.
  pose proof (zeros_after_packet_range fr cnt) as Hz.
  destruct Hem as [H0|H505|v Hr Hget|H0 H504 Hpos|H0 H504 Hzero].
  - left. simpl. split_and!; try done; lia.
  - right; right; left. simpl. split_and!; try done; lia.
  - right; right; right. simpl. split_and!; try done; lia.
  - pose proof (zeros_after_packet_fits fr cnt ltac:(lia) Hpos).
    right; left. simpl. split_and!; try lia. by right.
  - right; left. simpl. split_and!; try lia. by left.
Qed.

Lemma sent_count (fr : list Z) (log : list (Z * list Z)) (cnt : Z) :
  channel_frame fr → sent fr log cnt →
  (cnt = 0 ∧ log = [])
  ∨ (6 ≤ cnt ∧ (1 ≤ length log)%nat
     ∧ Z.of_nat (length log)
       ≤ 1 + (Z.min cnt 506 - 6) / 7 + Z.max 0 (cnt - 506)).
Proof.
  intros Hfr Hs. induction Hs as [|log cnt p cnt' Hs IH Hlt Hem]; [by left|].
  right. pose proof (sent_cursor _ _ _ Hfr Hs) as Hc.
  apply (emits_step fr cnt p cnt' Hfr) in Hem; [|lia|done].
  rewrite length_app. simpl.
  destruct IH as [[-> ->]|(H6 & H1 & Hn)]; simpl.
  - destruct Hem as [(_ & Hr & _)|[?|[?|?]]]; try lia.
    split; [lia|]. split; [lia|].
    assert (0 ≤ (Z.min cnt' 506 - 6) / 7) by (apply Z.div_pos; lia). lia.
  - split; [lia|]. split; [lia|].
    destruct Hem as [?|[(Hr & Hr' & _)|[(-> & -> & _)|(Hr & -> & _)]]];
      [lia| | |].
    + destruct (Z.le_gt_cases cnt' 506) as [Hle|Hgt].
      * rewrite (Z.min_l cnt') by lia. rewrite (Z.min_l cnt) in Hn by lia.
        rewrite (Z.max_l 0) by lia. rewrite Z.max_l in Hn by lia.
        assert ((cnt - 6) / 7 + 1 ≤ (cnt' - 6) / 7).
        { replace ((cnt - 6) / 7 + 1) with ((cnt - 6 + 1 * 7) / 7)
            by (rewrite Z.div_add; lia).
          apply Z.div_le_mono; lia. }
        lia.
      * rewrite (Z.min_r cnt') by lia. rewrite (Z.min_l cnt) in Hn by lia.
        rewrite Z.max_l in Hn by lia.
        assert ((cnt - 6) / 7 ≤ 71).
        { change 71 with (498 / 7). apply Z.div_le_mono; lia. }
        change ((506 - 6) / 7) with 71. lia.
    + change (1 + (Z.min 505 506 - 6) / 7 + Z.max 0 (505 - 506)) with 72 in Hn.
      change (1 + (Z.min 512 506 - 6) / 7 + Z.max 0 (512 - 506)) with 78.
      lia.
    + rewrite (Z.min_r cnt) in Hn by lia. rewrite (Z.min_r (cnt + 1)) by lia.
      lia.
Qed.

(** X3. A frame never takes fewer than 2 packets or more than 77: the
    start packet covers at most 260 channels, every later packet before
    index 505 covers at least 7, and at most 5 single packets follow. *)
Theorem frame_packets_count (fr : list Z) :
  channel_frame fr → (2 ≤ length (frame_packets fr) ≤ 77)%nat.
Proof.
  intros Hfr. destruct (frame_packets_sent fr Hfr) as (c & Hc & Hs).
  inversion Hs as [Hnil H0|log cnt p cnt' Hs' Hlt Hem Hlog Hcnt]; [lia|].
  subst cnt'. pose proof (sent_cursor _ _ _ Hfr Hs') as Hcur.
  apply (emits_step fr cnt p c Hfr) in Hem; [|lia|done].
  rewrite length_app. simpl.
  destruct (sent_count _ _ _ Hfr Hs') as [[-> ->]|(H6 & H1 & Hn)]; [lia|].
  assert ((Z.min cnt 506 - 6) / 7 ≤ 71).
  { change 71 with (500 / 7). apply Z.div_le_mono; lia. }
  lia.
Qed.

Lemma frame_packets_count_witness :
  channel_frame frame_three_leading_zeros
  ∧ (2 ≤ length (frame_packets frame_three_leading_zeros) ≤ 77)%nat
  ∧ length (frame_packets frame_three_leading_zeros) = 77%nat.
Proof.
  assert (Hfr : channel_frame frame_three_leading_zeros)
    by (apply channel_frame_check; vm_compute; reflexivity).
  split; [exact Hfr|]. split; [exact (frame_packets_count _ Hfr)|].
  vm_compute. reflexivity.
Defined.

(** Both bounds are reached: the dark frame takes 2 packets. *)
Example frame_packets_count_reached :
  length (frame_packets (replicate 512 0)) = 2%nat
  ∧ length (frame_packets frame_three_leading_zeros) = 77%nat.
Proof. vm_compute. by split. Qed.

Lemma sent_start_once (fr : list Z) (log : list (Z * list Z)) (cnt : Z) :
  channel_frame fr → sent fr log cnt →
  (cnt = 0 ∧ log = [])
  ∨ ∃ rest,
      log = (1, 4 :: (zeros_after_packet fr 0 + 1)
                  :: Py.slice fr (zeros_after_packet fr 0)
                                 (zeros_after_packet fr 0 + 6)) :: rest
      ∧ Forall (λ ep, head ep.2 ≠ Some 4) rest.
Proof.
  intros Hfr Hs. induction Hs as [|log cnt p cnt' Hs IH Hlt Hem]; [by left|].
  right. pose proof (sent_cursor _ _ _ Hfr Hs) as Hcur.
  destruct IH as [[-> ->]|(rest & -> & Hrest)].
  - exists []. split; [|constructor]. simpl.
    destruct Hem as [H0|H505|v Hr Hget|H0 H504 Hpos|H0 H504 Hzero];
      try lia; try done.
  - exists (rest ++ [(1, p)]). split; [done|].
    apply Forall_app. split; [done|]. apply Forall_singleton. simpl.
    destruct Hcur as [[_ ?]|Hcur]; [done|].
    apply (emits_step fr cnt p cnt' Hfr) in Hem; [|lia|done].
    destruct Hem as [?|[(_ & _ & [Hh|Hh])|[(_ & _ & Hh)|(_ & _ & Hh)]]];
      [lia| | | |]; rewrite Hh; discriminate.
Qed.

(** X4. Every frame goes out as one start packet followed by packets of
    the other types only: the first payload is type 4 with the leading
    zero run plus 1 and the six values after the run, and no later
    payload is type 4. *)
Theorem frame_packets_start_once (fr : list Z) :
  channel_frame fr →
  ∃ rest,
    frame_packets fr
    = (1, 4 :: (zeros_after_packet fr 0 + 1)
             :: Py.slice fr (zeros_after_packet fr 0)
                            (zeros_after_packet fr 0 + 6)) :: rest
    ∧ Forall (λ ep, head ep.2 ≠ Some 4) rest.
Proof.
  intros Hfr. destruct (frame_packets_sent fr Hfr) as (c & Hc & Hs).
  destruct (sent_start_once _ _ _ Hfr Hs) as [[-> _]|Hstart]; [lia|done].
Qed.

Lemma frame_packets_start_once_witness :
  channel_frame frame_six_zeros_then_seven
  ∧ ∃ rest,
      frame_packets frame_six_zeros_then_seven
      = (1, 4 :: (zeros_after_packet frame_six_zeros_then_seven 0 + 1)
               :: Py.slice frame_six_zeros_then_seven
                    (zeros_after_packet frame_six_zeros_then_seven 0)
                    (zeros_after_packet frame_six_zeros_then_seven 0 + 6))
        :: rest
      ∧ Forall (λ ep, head ep.2 ≠ Some 4) rest.
Proof.
  assert (Hfr : channel_frame frame_six_zeros_then_seven)
    by (apply channel_frame_check; vm_compute; reflexivity).
  split; [exact Hfr|]. exact (frame_packets_start_once _ Hfr).
Defined.

(** The frame of the specification's example: channels 1 to 6 dark,
    channel 7 lit, gives a start packet with skip-count 6. *)
Example frame_packets_six_zeros_then_seven :
  frame_packets frame_six_zeros_then_seven
  = [(1, [4; 7; 7; 0; 0; 0; 0; 0]); (1, [5; 254; 0; 0; 0; 0; 0; 0]);
     (1, [5; 233; 0; 0; 0; 0; 0; 0])].
Proof. vm_compute. reflexivity. Qed.

(** ** Values that do not fit a byte *)

(** A pass that reaches the device has looked at every channel it moves
    the cursor over: each is a zero it skipped or a value in the payload,
    so each fits a byte. *)
Lemma emits_bytes_cover (fr : list Z) (cnt : Z) (p : list Z) (c' : Z)
    (j : nat) (v : Z) :
  0 ≤ cnt → emits fr fr cnt p c' → Forall (λ v, 0 ≤ v < 256) (tail p) →
  cnt ≤ Z.of_nat j < c' → fr !! j = Some v → 0 ≤ v < 256.
Proof.
  intros Hc Hem Hb Hj Hv.
  assert (Hzero : ∀ start, 0 ≤ start →
            start ≤ Z.of_nat j < start + zeros_after_packet fr start →
            0 ≤ v < 256).
  { intros start Hs Hin.
    destruct (zeros_after_packet_zero fr start (Z.of_nat j) Hs Hin) as [_ Hz].
    rewrite Nat2Z.id, Hv in Hz. injection Hz as ->. lia. }
  destruct Hem as [H0|H505|v' Hr Hget|H0 H504 Hpos|H0 H504 Hzeros];
    simpl in Hb.
  - subst cnt. apply Forall_cons in Hb as [_ Hb].
    pose proof (zeros_after_packet_range fr 0) as Hz.
    destruct (Z.lt_ge_cases (Z.of_nat j) (zeros_after_packet fr 0)) as [Hlt|Hge].
    + apply (Hzero 0); lia.
    + eapply (slice_covers (λ x, 0 ≤ x < 256) fr _ _ j v);
        [| |exact Hv|exact Hb]; lia.
  - eapply (slice_covers (λ x, 0 ≤ x < 256) fr _ _ j v);
        [| |exact Hv|exact Hb]; lia.
  - apply Forall_cons in Hb as [Hb _].
    pose proof (getitem_cases fr cnt Hc) as Hgc. rewrite Hget in Hgc.
    replace (Z.to_nat cnt) with j in Hgc by lia. congruence.
  - apply Forall_cons in Hb as [_ Hb].
    destruct (Z.lt_ge_cases (Z.of_nat j) (cnt + zeros_after_packet fr cnt))
      as [Hlt|Hge].
    + apply (Hzero cnt); lia.
    + eapply (slice_covers (λ x, 0 ≤ x < 256) fr _ _ j v);
        [| |exact Hv|exact Hb]; lia.
  - eapply (slice_covers (λ x, 0 ≤ x < 256) fr _ _ j v);
        [| |exact Hv|exact Hb]; lia.
Qed.

Lemma make_frame_loop_overflow (fr : list Z) (j : nat) (v : Z) :
  fr !! j = Some v → (j < 511)%nat → ¬ (0 ≤ v < 256) →
  ∀ fuel cnt w,
    frame (self w) = fr → faults (dev w) = [] →
    0 ≤ cnt ≤ Z.of_nat j → 511 - cnt ≤ Z.of_nat fuel →
    (make_frame_loop fuel fr cnt w).1 = Raised OverflowError.
Proof.
  intros Hv Hj Hbad fuel.
  induction fuel as [|fuel IH]; intros cnt w Hw Hf Hc Hfuel; [lia|].
  simpl. destruct (Z.ltb_spec cnt 511) as [_|?]; [|lia].
  destruct (make_frame_iter_shape fr fr cnt ltac:(lia))
    as (line & ok & p & e & c' & Heq & Hok & Hnot).
  unfold mbind, M_bind, bind. rewrite (Heq w Hw). destruct ok.
  - destruct (Hok eq_refl) as [Hem Hb].
    rewrite (sending_pass_accepted _ _ _ _ _ []) by auto.
    pose proof (emits_advances _ _ _ _ _ Hem) as Hadv.
    apply IH; [done|by rewrite Hf| |lia].
    split; [lia|].
    destruct (Z.le_gt_cases c' (Z.of_nat j)) as [Hle|Hgt]; [done|].
    exfalso. apply Hbad.
    by apply (emits_bytes_cover fr cnt p c' j v); [lia|..]; try lia.
  - rewrite sending_pass_rejected. simpl.
    destruct (Hnot eq_refl) as [[-> _]|[_ Hlen]]; [done|].
    apply lookup_lt_Some in Hv. lia.
Qed.

(** X5. [make_frame] does not clamp or mask: when any of channels 1 to
    511 holds a value outside [0,255], it raises OverflowError on a
    transport that accepts every write. *)
Theorem make_frame_overflows_on_wide_value (w : world) (j : nat) (v : Z) :
  frame (self w) !! j = Some v → (j < 511)%nat → ¬ (0 ≤ v < 256) →
  faults (dev w) = [] →
  (make_frame w).1 = Raised OverflowError.
Proof.
  intros Hv Hj Hbad Hf. rewrite make_frame_outcome.
  rewrite (make_frame_loop_overflow (frame (self w)) j v Hv Hj Hbad
             make_frame_fuel 0 w eq_refl Hf ltac:(lia)
             ltac:(unfold make_frame_fuel; lia)).
  reflexivity.
Qed.

Lemma make_frame_overflows_on_wide_value_witness :
  let w := world_of (<[100%nat := 256]> frame_all_ones) [] in
  frame (self w) !! 100%nat = Some 256 ∧ (100 < 511)%nat
  ∧ ¬ (0 ≤ 256 < 256) ∧ faults (dev w) = []
  ∧ (make_frame w).1 = Raised OverflowError.
Proof.
  intros w.
  assert (Hv : frame (self w) !! 100%nat = Some 256) by reflexivity.
  assert (Hj : (100 < 511)%nat) by lia.
  assert (Hbad : ¬ (0 ≤ 256 < 256)) by lia.
  split; [exact Hv|]. split; [exact Hj|]. split; [exact Hbad|].
  split; [reflexivity|].
  exact (make_frame_overflows_on_wide_value w 100 256 Hv Hj Hbad eq_refl).
Defined.

(** Channel 512 is the exception: unless a packet boundary falls on index
    505 its value is never looked at. *)
Example make_frame_ignores_wide_channel_512 :
  (make_frame (world_of (<[511%nat := 256]> frame_all_ones) [])).1 = Returned tt
  ∧ (make_frame (world_of (<[511%nat := 256]> frame_two_leading_zeros) [])).1
    = Raised OverflowError.
Proof. vm_compute. by split. Qed.

(** ** More on zeros_after_packet *)

(** X6. The skip count at [start] is decided by indices [start] to 504
    alone: two lists that agree there give the same count, whatever they
    hold from index 505 on and however long they are. *)
Theorem zeros_after_packet_ignores_tail (data1 data2 : list Z) (start : Z) :
  0 ≤ start →
  (∀ k : nat, start ≤ Z.of_nat k < 505 → data1 !! k = data2 !! k) →
  zeros_after_packet data1 start = zeros_after_packet data2 start.
Proof.
  intros Hs Hagree. unfold zeros_after_packet.
  replace (Py.slice data1 start 505) with (Py.slice data2 start 505); [done|].
  apply list_eq. intros i. rewrite !slice_lookup by lia.
  destruct (decide (start + Z.of_nat i < 505)); [|done].
  symmetry. apply Hagree. lia.
Qed.

Lemma zeros_after_packet_ignores_tail_witness :
  0 ≤ 3
  ∧ (∀ k : nat, 3 ≤ Z.of_nat k < 505 →
       (replicate 505 0 ++ replicate 7 0) !! k
       = (replicate 505 0 ++ [1; 2; 3; 4; 5; 6; 7; 8; 9]) !! k)
  ∧ zeros_after_packet (replicate 505 0 ++ replicate 7 0) 3
    = zeros_after_packet (replicate 505 0 ++ [1; 2; 3; 4; 5; 6; 7; 8; 9]) 3.
Proof.
  assert (Hagree : ∀ k : nat, 3 ≤ Z.of_nat k < 505 →
       (replicate 505 0 ++ replicate 7 0) !! k
       = (replicate 505 0 ++ [1; 2; 3; 4; 5; 6; 7; 8; 9]) !! k).
  { intros k Hk. rewrite !lookup_app_l by (rewrite length_replicate; lia).
    reflexivity. }
  split; [lia|]. split; [exact Hagree|].
  apply zeros_after_packet_ignores_tail; [lia|exact Hagree].
Defined.

(** X7. The count never reaches past index 504 or past the end of the
    list: it is at most min(505, len) - start, so it is 0 for an empty
    list, for a start at or beyond the end, and for a start of 505 or
    more. *)
Theorem zeros_after_packet_stays_inside (data : list Z) (start : Z) :
  0 ≤ start →
  zeros_after_packet data start
  ≤ Z.max 0 (Z.min 505 (Z.of_nat (length data)) - start).
Proof.
  intros Hs. unfold zeros_after_packet.
  pose proof (count_zeros_spec (Py.slice data start 505) 0) as (Hb & _).
  assert (Hlen : Z.of_nat (length (Py.slice data start 505))
                 ≤ Z.max 0 (Z.min 505 (Z.of_nat (length data)) - start)).
  { rewrite slice_nonneg by lia. rewrite length_take, length_drop. lia. }
  destruct (Z.ltb_spec (count_zeros (Py.slice data start 505) 0) 255); lia.
Qed.

Lemma zeros_after_packet_stays_inside_witness :
  0 ≤ 2
  ∧ zeros_after_packet [0; 0; 0] 2 ≤ Z.max 0 (Z.min 505 3 - 2)
  ∧ zeros_after_packet [] 0 ≤ 0
  ∧ zeros_after_packet (replicate 512 0) 505 ≤ 0.
Proof.
  split; [lia|]. split; [|split].
  - exact (zeros_after_packet_stays_inside [0; 0; 0] 2 ltac:(lia)).
  - exact (zeros_after_packet_stays_inside [] 0 ltac:(lia)).
  - exact (zeros_after_packet_stays_inside (replicate 512 0) 505 ltac:(lia)).
Defined.

(** X8. The count in closed form: when exactly [n] zeros follow [start]
    before a non-zero value, the end of the list or index 505, the result
    is min(n, 254).  A run of 254 zeros and any longer run give the same
    answer. *)
Theorem zeros_after_packet_exact (data : list Z) (start n : Z) :
  0 ≤ start → 0 ≤ n → start + n ≤ 505 →
  (∀ k, start ≤ k < start + n → data !! Z.to_nat k = Some 0) →
  (start + n = 505 ∨ data !! Z.to_nat (start + n) ≠ Some 0) →
  zeros_after_packet data start = Z.min n 254.
Proof.
  intros Hs Hn Hfit Hzeros Hstop.
  pose proof (zeros_after_packet_range data start) as Hr.
  assert (Hle : zeros_after_packet data start ≤ n).
  { destruct (Z.le_gt_cases (zeros_after_packet data start) n) as [?|Hgt];
      [done|]. exfalso.
    destruct (zeros_after_packet_zero data start (start + n) Hs ltac:(lia))
      as [H505 Hz].
    destruct Hstop as [?|Hne]; [lia|done]. }
  destruct (Z.lt_ge_cases (zeros_after_packet data start) (Z.min n 254))
    as [Hlt|Hge]; [|lia].
  exfalso.
  apply (zeros_after_packet_maximal data start Hs); [lia|lia|].
  apply Hzeros. lia.
Qed.

Lemma zeros_after_packet_exact_witness :
  0 ≤ 0 ∧ 0 ≤ 505 ∧ 0 + 505 ≤ 505
  ∧ (∀ k, 0 ≤ k < 0 + 505 → replicate 512 0 !! Z.to_nat k = Some 0)
  ∧ zeros_after_packet (replicate 512 0) 0 = Z.min 505 254.
Proof.
  assert (Hz : ∀ k, 0 ≤ k < 0 + 505 → replicate 512 0 !! Z.to_nat k = Some 0).
  { intros k Hk. apply lookup_replicate_2. lia. }
  split; [lia|]. split; [lia|]. split; [lia|]. split; [exact Hz|].
  apply zeros_after_packet_exact; [lia|lia|lia|exact Hz|by left].
Defined.

(** X9. A start below zero counts from the end of the list, as every
    Python slice bound does: the count is the one at [start + len], or at
    0 when that is still negative. *)
Theorem zeros_after_packet_negative_start (data : list Z) (start : Z) :
  start < 0 →
  zeros_after_packet data start
  = zeros_after_packet data (Z.max 0 (start + Z.of_nat (length data))).
Proof.
  intros Hs. unfold zeros_after_packet, Py.slice, Py.slice_bound.
  destruct (Z.ltb_spec start 0); [|lia].
  destruct (Z.ltb_spec (Z.max 0 (start + Z.of_nat (length data))) 0); [lia|].
  rewrite (Z.min_l (Z.max 0 (start + Z.of_nat (length data)))) by lia.
  reflexivity.
Qed.

Lemma zeros_after_packet_negative_start_witness :
  -3 < 0
  ∧ zeros_after_packet [5; 0; 0; 7; 0; 0; 0] (-3)
    = zeros_after_packet [5; 0; 0; 7; 0; 0; 0] (Z.max 0 (-3 + 7))
  ∧ zeros_after_packet [5; 0; 0; 7; 0; 0; 0] (-3) = 3.
Proof.
  split; [lia|]. split.
  - exact (zeros_after_packet_negative_start [5; 0; 0; 7; 0; 0; 0] (-3)
             ltac:(lia)).
  - vm_compute. reflexivity.
Defined.

(** ** More on set_channel *)

Lemma index_cases {A} (l : list A) (i : Z) :
  Py.index l i
  = if decide (- Z.of_nat (length l) ≤ i < Z.of_nat (length l))
    then inr (Z.to_nat (if i <? 0 then i + Z.of_nat (length l) else i))
    else inl IndexError.
Proof.
  unfold Py.index. destruct (decide _) as [Hin|Hout].
  - destruct (Z.ltb_spec i 0).
    + destruct (Z.ltb_spec (i + Z.of_nat (length l)) 0); [lia|].
      by destruct (Z.leb_spec (Z.of_nat (length l)) (i + Z.of_nat (length l)));
        [lia|].
    + destruct (Z.ltb_spec i 0); [lia|].
      by destruct (Z.leb_spec (Z.of_nat (length l)) i); [lia|].
  - destruct (Z.ltb_spec i 0).
    + by destruct (Z.ltb_spec (i + Z.of_nat (length l)) 0); [|lia].
    + destruct (Z.ltb_spec i 0); [lia|].
      by destruct (Z.leb_spec (Z.of_nat (length l)) i); [|lia].
Qed.

Lemma set_channel_eq (channel value : Z) (w : world) :
  set_channel channel value w
  = match Py.index (frame (self w)) (channel - 1) with
    | inl e => (Raised e, w)
    | inr n =>
        (Returned tt,
         mkWorld (mkController (update_rate_ms (self w))
                    (<[n := value]> (frame (self w))) (prev_frame (self w)))
                 (dev w) (stdout w))
    end.
Proof.
  unfold set_channel, mbind, M_bind, bind, self_frame, Py.setitem.
  by destruct (Py.index (frame (self w)) (channel - 1)).
Qed.

(** X10. [set_channel] fails exactly when the channel lies outside
    [1 - len, len], where len is the number of slots: it then raises
    IndexError and leaves the world as it was; inside that range it
    returns, whatever the value is. *)
Theorem set_channel_index_error (w : world) (channel value : Z) :
  ((channel < 1 - Z.of_nat (length (frame (self w)))
    ∨ Z.of_nat (length (frame (self w))) < channel) →
   set_channel channel value w = (Raised IndexError, w))
  ∧ (1 - Z.of_nat (length (frame (self w))) ≤ channel
     ≤ Z.of_nat (length (frame (self w))) →
     (set_channel channel value w).1 = Returned tt).
Proof.
  rewrite set_channel_eq, index_cases. split; intros Hc.
  - by destruct (decide _) as [Hin|_]; [lia|].
  - by destruct (decide _) as [_|Hout]; [|lia].
Qed.

Lemma set_channel_index_error_witness :
  let w := world_of frame_all_ones [] in
  (513 < 1 - Z.of_nat (length (frame (self w)))
   ∨ Z.of_nat (length (frame (self w))) < 513)
  ∧ set_channel 513 7 w = (Raised IndexError, w)
  ∧ set_channel (-512) 7 w = (Raised IndexError, w)
  ∧ (set_channel (-511) 300 w).1 = Returned tt.
Proof.
  intros w.
  assert (H513 : 513 < 1 - Z.of_nat (length (frame (self w)))
                 ∨ Z.of_nat (length (frame (self w))) < 513)
    by (right; vm_compute; reflexivity).
  assert (Hm512 : -512 < 1 - Z.of_nat (length (frame (self w)))
                  ∨ Z.of_nat (length (frame (self w))) < -512)
    by (left; vm_compute; reflexivity).
  assert (Hm511 : 1 - Z.of_nat (length (frame (self w))) ≤ -511
                  ≤ Z.of_nat (length (frame (self w))))
    by (split; vm_compute; discriminate).
  split; [exact H513|]. split; [|split].
  - exact (proj1 (set_channel_index_error w 513 7) H513).
  - exact (proj1 (set_channel_index_error w (-512) 7) Hm512).
  - exact (proj2 (set_channel_index_error w (-511) 300) Hm511).
Defined.

(** X11. Channels at or below zero name slots counted from the end: for
    1 - len <= channel <= 0, [set_channel channel] does exactly what
    [set_channel (channel + len)] does. *)
Theorem set_channel_wraps_around (w : world) (channel value : Z) :
  1 - Z.of_nat (length (frame (self w))) ≤ channel ≤ 0 →
  set_channel channel value w
  = set_channel (channel + Z.of_nat (length (frame (self w)))) value w.
Proof.
  intros Hc. rewrite !set_channel_eq, !index_cases.
  destruct (decide _) as [_|?]; [|lia]. destruct (decide _) as [_|?]; [|lia].
  destruct (Z.ltb_spec (channel - 1) 0); [|lia].
  destruct (Z.ltb_spec (channel + Z.of_nat (length (frame (self w))) - 1) 0);
    [lia|].
  repeat f_equal. lia.
Qed.

Lemma set_channel_wraps_around_witness :
  let w := world_of frame_all_ones [] in
  1 - Z.of_nat (length (frame (self w))) ≤ -9 ≤ 0
  ∧ set_channel (-9) 42 w = set_channel 503 42 w.
Proof.
  intros w.
  assert (Hc : 1 - Z.of_nat (length (frame (self w))) ≤ -9 ≤ 0)
    by (split; vm_compute; discriminate).
  split; [exact Hc|]. exact (set_channel_wraps_around w (-9) 42 Hc).
Defined.

(** X12. Writing a channel and reading it back: for a channel from 1 to
    len the call returns, the channel's slot holds the value (no check
    that it is a byte), every other slot and the number of slots are as
    before, and [prev_frame], the update rate, the device and the console
    are untouched. *)
Theorem set_channel_then_read (w : world) (channel value : Z) :
  1 ≤ channel ≤ Z.of_nat (length (frame (self w))) →
  (set_channel channel value w).1 = Returned tt
  ∧ frame (self (set_channel channel value w).2) !! Z.to_nat (channel - 1)
    = Some value
  ∧ (∀ i : nat, i ≠ Z.to_nat (channel - 1) →
       frame (self (set_channel channel value w).2) !! i
       = frame (self w) !! i)
  ∧ length (frame (self (set_channel channel value w).2))
    = length (frame (self w))
  ∧ prev_frame (self (set_channel channel value w).2) = prev_frame (self w)
  ∧ update_rate_ms (self (set_channel channel value w).2)
    = update_rate_ms (self w)
  ∧ dev (set_channel channel value w).2 = dev w
  ∧ stdout (set_channel channel value w).2 = stdout w.
Proof.
  intros Hc. rewrite set_channel_eq, index_cases.
  destruct (decide _) as [_|?]; [|lia].
  destruct (Z.ltb_spec (channel - 1) 0); [lia|]. simpl.
  split_and!; try done.
  - apply list_lookup_insert_eq. lia.
  - intros i Hi. by apply list_lookup_insert_ne.
  - apply length_insert.
Qed.

Lemma set_channel_then_read_witness :
  let w := world_of frame_all_ones [None; Some USBError] in
  1 ≤ 7 ≤ Z.of_nat (length (frame (self w)))
  ∧ (set_channel 7 300 w).1 = Returned tt
  ∧ frame (self (set_channel 7 300 w).2) !! 6%nat = Some 300
  ∧ dev (set_channel 7 300 w).2 = dev w.
Proof.
  intros w.
  assert (Hc : 1 ≤ 7 ≤ Z.of_nat (length (frame (self w))))
    by (split; vm_compute; discriminate).
  destruct (set_channel_then_read w 7 300 Hc)
    as (H1 & H2 & _ & _ & _ & _ & H7 & _).
  split; [exact Hc|]. split; [exact H1|]. split; [exact H2|exact H7].
Defined.

Lemma set_channel_in_range (w : world) (channel value : Z) :
  1 ≤ channel ≤ Z.of_nat (length (frame (self w))) →
  set_channel channel value w
  = (Returned tt,
     mkWorld (mkController (update_rate_ms (self w))
                (<[Z.to_nat (channel - 1) := value]> (frame (self w)))
                (prev_frame (self w)))
             (dev w) (stdout w)).
Proof.
  intros Hc. rewrite set_channel_eq, index_cases.
  destruct (decide _) as [_|?]; [|lia].
  by destruct (Z.ltb_spec (channel - 1) 0); [lia|].
Qed.

(** X13. Two writes in a row, for channels from 1 to len: on the same
    channel the second value is what stays, and on different channels the
    order of the two writes does not matter. *)
Theorem set_channel_twice (w : world) (c1 c2 v1 v2 : Z) :
  1 ≤ c1 ≤ Z.of_nat (length (frame (self w))) →
  1 ≤ c2 ≤ Z.of_nat (length (frame (self w))) →
  (set_channel c1 v1;; set_channel c1 v2) w = set_channel c1 v2 w
  ∧ (c1 ≠ c2 →
     (set_channel c1 v1;; set_channel c2 v2) w
     = (set_channel c2 v2;; set_channel c1 v1) w).
Proof.
  intros H1 H2. unfold bind.
  rewrite (set_channel_in_range w c1 v1 H1), (set_channel_in_range w c2 v2 H2).
  rewrite (set_channel_in_range w c1 v2 H1).
  rewrite !set_channel_in_range by (cbn [self frame]; rewrite length_insert; lia).
  cbn [self frame update_rate_ms prev_frame dev stdout]. split.
  - by rewrite list_insert_insert_eq.
  - intros Hne.
    by rewrite (list_insert_insert_ne _ (Z.to_nat (c2 - 1)) (Z.to_nat (c1 - 1)))
      by lia.
Qed.

Lemma set_channel_twice_witness :
  let w := world_of frame_all_ones [] in
  1 ≤ 3 ≤ Z.of_nat (length (frame (self w)))
  ∧ 1 ≤ 9 ≤ Z.of_nat (length (frame (self w)))
  ∧ (set_channel 3 10;; set_channel 3 20) w = set_channel 3 20 w
  ∧ (set_channel 3 10;; set_channel 9 20) w
    = (set_channel 9 20;; set_channel 3 10) w.
Proof.
  intros w.
  assert (H3 : 1 ≤ 3 ≤ Z.of_nat (length (frame (self w))))
    by (split; vm_compute; discriminate).
  assert (H9 : 1 ≤ 9 ≤ Z.of_nat (length (frame (self w))))
    by (split; vm_compute; discriminate).
  destruct (set_channel_twice w 3 9 10 20 H3 H9) as [Hsame Hswap].
  split; [exact H3|]. split; [exact H9|]. split; [exact Hsame|].
  apply Hswap. discriminate.
Defined.

Lemma set_channel_keeps_channel_frame (w : world) (channel value : Z) :
  channel_frame (frame (self w)) → 0 ≤ value ≤ 255 →
  channel_frame (frame (self (set_channel channel value w).2))
  ∧ dev (set_channel channel value w).2 = dev w.
Proof.
  intros [Hlen Hall] Hv. rewrite set_channel_eq.
  destruct (Py.index (frame (self w)) (channel - 1)) as [e|n]; simpl.
  - done.
  - split; [|done]. split.
    + by rewrite length_insert.
    + apply Forall_insert; [done|lia].
Qed.

Lemma after_calls_keeps_channel_frame (calls : list (Z * Z)) (w : world) :
  Forall (λ cv, 0 ≤ cv.2 ≤ 255) calls → channel_frame (frame (self w)) →
  channel_frame (frame (self (after_calls calls w)))
  ∧ dev (after_calls calls w) = dev w.
Proof.
  intros Hcalls. revert w.
  induction Hcalls as [|[c v] calls Hv _ IH]; intros w Hfr; [done|].
  unfold after_calls. simpl. fold (after_calls calls (set_channel c v w).2).
  destruct (set_channel_keeps_channel_frame w c v Hfr Hv) as [Hfr' Hdev].
  destruct (IH _ Hfr') as [Hfr'' Hdev']. split; [done|congruence].
Qed.

(** X14. A controller that is built by [__init__] and then only given
    values from 0 to 255, on any channels and whether or not a call
    raises IndexError, always holds a channel frame, and [make_frame]
    returns on it when the transport accepts every write: OverflowError
    cannot come from such a controller. *)
Theorem byte_values_never_overflow (rate : Z) (calls : list (Z * Z))
    (d : usb_device) (out : list string) :
  Forall (λ cv, 0 ≤ cv.2 ≤ 255) calls → faults d = [] →
  channel_frame (frame (self (after_calls calls (mkWorld (init rate) d out))))
  ∧ (make_frame (after_calls calls (mkWorld (init rate) d out))).1
    = Returned tt.
Proof.
  intros Hcalls Hf.
  assert (Hinit : channel_frame (frame (self (mkWorld (init rate) d out)))).
  { apply channel_frame_check; vm_compute; reflexivity. }
  destruct (after_calls_keeps_channel_frame calls _ Hcalls Hinit)
    as [Hfr Hdev].
  split; [done|].
  destruct (make_frame_packets _ Hfr) as [Hok _].
  apply (Hok _ eq_refl). by rewrite Hdev.
Qed.

Lemma byte_values_never_overflow_witness :
  Forall (λ cv : Z * Z, 0 ≤ cv.2 ≤ 255) [(1, 201); (600, 10); (0, 255); (3, 0)]
  ∧ faults (mkDevice [] []) = []
  ∧ (make_frame (after_calls [(1, 201); (600, 10); (0, 255); (3, 0)]
                   (mkWorld (init 1) (mkDevice [] []) []))).1
    = Returned tt.
Proof.
  assert (Hcalls : Forall (λ cv : Z * Z, 0 ≤ cv.2 ≤ 255)
                     [(1, 201); (600, 10); (0, 255); (3, 0)]).
  { repeat (apply Forall_cons; split; [simpl; lia|]). apply Forall_nil_2. }
  split; [exact Hcalls|]. split; [reflexivity|].
  exact (proj2 (byte_values_never_overflow 1 _ (mkDevice [] []) []
                  Hcalls eq_refl)).
Defined.

(** ** The send methods on their own *)

Lemma not_bytes (data : list Z) :
  ¬ Forall (λ v, 0 ≤ v < 256) data → forallb is_byte data = false.
Proof.
  intros Hn. destruct (forallb is_byte data) eqn:Hb; [|done].
  by apply forallb_is_byte in Hb.
Qed.

Lemma not_byte (v : Z) : ¬ (0 ≤ v < 256) → is_byte v = false.
Proof.
  intros Hn. destruct (is_byte v) eqn:Hb; [|done].
  by apply is_byte_spec in Hb.
Qed.

(** X15. No send method writes part of a packet or a clipped value: when
    a value it is given does not fit a byte (for [send_start], when
    skip + 1 does not), it raises OverflowError before it reaches the
    device, and the world, the fault script included, is as it was. *)
Theorem send_rejects_wide_values (w : world) :
  (∀ skip data,
     ¬ (0 ≤ skip + 1 < 256 ∧ Forall (λ v, 0 ≤ v < 256) data) →
     send_start skip data w = (Raised OverflowError, w))
  ∧ (∀ data,
       ¬ Forall (λ v, 0 ≤ v < 256) data →
       send_data data w = (Raised OverflowError, w))
  ∧ (∀ v, ¬ (0 ≤ v < 256) → send_single v w = (Raised OverflowError, w))
  ∧ (∀ skip data,
       ¬ (0 ≤ skip < 256 ∧ Forall (λ v, 0 ≤ v < 256) data) →
       send_data_skip skip data w = (Raised OverflowError, w)).
Proof.
  split_and!.
  - intros skip data Hn. rewrite send_start_eq.
    destruct (is_byte (skip + 1)) eqn:Hs; [|done].
    destruct (forallb is_byte data) eqn:Hd; [|done].
    exfalso. apply Hn. split; [by apply is_byte_spec|by apply forallb_is_byte].
  - intros data Hn. by rewrite send_data_eq, not_bytes.
  - intros v Hn. by rewrite send_single_eq, not_byte.
  - intros skip data Hn. rewrite send_data_skip_eq.
    destruct (is_byte skip) eqn:Hs; [|done].
    destruct (forallb is_byte data) eqn:Hd; [|done].
    exfalso. apply Hn. split; [by apply is_byte_spec|by apply forallb_is_byte].
Qed.

Lemma send_rejects_wide_values_witness :
  let w := world_of frame_all_ones [Some USBError] in
  ¬ (0 ≤ 255 + 1 < 256 ∧ Forall (λ v, 0 ≤ v < 256) [1; 2; 3; 4; 5; 6])
  ∧ send_start 255 [1; 2; 3; 4; 5; 6] w = (Raised OverflowError, w)
  ∧ send_single (-1) w = (Raised OverflowError, w).
Proof.
  intros w.
  assert (Hn : ¬ (0 ≤ 255 + 1 < 256
                  ∧ Forall (λ v, 0 ≤ v < 256) [1; 2; 3; 4; 5; 6])) by lia.
  destruct (send_rejects_wide_values w) as (Hstart & _ & Hsingle & _).
  split; [exact Hn|]. split; [exact (Hstart 255 _ Hn)|].
  apply Hsingle. lia.
Defined.

(** X16. Given values that fit, each send method hands the device one
    payload and nothing else: the type byte (4, 2, 3 or 5), then
    skip + 1, nothing, the value, or skip, then the values as given, in
    order, neither padded nor cut ([send_single] alone pads, with six
    zeros).  Read back by the packet grammar the payload gives the skipped
    zeros and the values. *)
Theorem send_payloads (w : world) :
  (∀ skip data,
     0 ≤ skip ≤ 254 → Forall (λ v, 0 ≤ v < 256) data →
     send_start skip data w = dev_write 1 (4 :: (skip + 1) :: data) w
     ∧ decode_packet (4 :: (skip + 1) :: data)
       = replicate (Z.to_nat skip) 0 ++ data)
  ∧ (∀ data,
       Forall (λ v, 0 ≤ v < 256) data →
       send_data data w = dev_write 1 (2 :: data) w
       ∧ decode_packet (2 :: data) = data)
  ∧ (∀ v,
       0 ≤ v < 256 →
       send_single v w = dev_write 1 [3; v; 0; 0; 0; 0; 0; 0] w
       ∧ decode_packet [3; v; 0; 0; 0; 0; 0; 0] = [v])
  ∧ (∀ skip data,
       0 ≤ skip ≤ 255 → Forall (λ v, 0 ≤ v < 256) data →
       send_data_skip skip data w = dev_write 1 (5 :: skip :: data) w
       ∧ decode_packet (5 :: skip :: data)
         = replicate (Z.to_nat skip) 0 ++ data).
Proof.
  split_and!.
  - intros skip data Hs Hd. split.
    + rewrite send_start_eq.
      assert (is_byte (skip + 1) = true) as -> by (apply is_byte_spec; lia).
      apply forallb_is_byte in Hd. by rewrite Hd.
    + cbn [decode_packet]. by replace (skip + 1 - 1) with skip by lia.
  - intros data Hd. split; [|done].
    rewrite send_data_eq. apply forallb_is_byte in Hd. by rewrite Hd.
  - intros v Hv. split; [|done].
    rewrite send_single_eq. apply is_byte_spec in Hv. by rewrite Hv.
  - intros skip data Hs Hd. split; [|done].
    rewrite send_data_skip_eq.
    assert (is_byte skip = true) as -> by (apply is_byte_spec; lia).
    apply forallb_is_byte in Hd. by rewrite Hd.
Qed.

Lemma send_payloads_witness :
  let w := world_of frame_all_ones [] in
  0 ≤ 254 ≤ 254 ∧ Forall (λ v, 0 ≤ v < 256) [7; 8]
  ∧ send_start 254 [7; 8] w = dev_write 1 [4; 255; 7; 8] w
  ∧ written (dev (send_start 254 [7; 8] w).2) = [(1, [4; 255; 7; 8])]
  ∧ decode_packet [4; 255; 7; 8] = replicate 254 0 ++ [7; 8].
Proof.
  intros w.
  assert (Hd : Forall (λ v, 0 ≤ v < 256) [7; 8]).
  { repeat (apply Forall_cons; split; [lia|]). apply Forall_nil_2. }
  destruct (send_payloads w) as (Hstart & _).
  destruct (Hstart 254 [7; 8] ltac:(lia) Hd) as [Heq Hdec].
  split; [lia|]. split; [exact Hd|]. split; [exact Heq|].
  split; [rewrite Heq; reflexivity|exact Hdec].
Defined.

(** ** Which packet type goes where *)

Lemma sent_packet_position (fr : list Z) (log : list (Z * list Z)) (cnt : Z) :
  channel_frame fr → sent fr log cnt →
  ∀ pre ep p post, log = pre ++ (ep, p) :: post →
    (total_channels pre = 0 ∧ head p = Some 4)
    ∨ (6 ≤ total_channels pre ≤ 504 ∧ (head p = Some 2 ∨ head p = Some 5))
    ∨ (total_channels pre = 505 ∧ head p = Some 2)
    ∨ (505 < total_channels pre < 511 ∧ head p = Some 3).
Proof.
  intros Hfr Hs. induction Hs as [|log cnt p0 cnt' Hs IH Hlt Hem].
  - intros pre ep p post Heq. by destruct pre.
  - intros pre ep p post Heq.
    destruct post as [|x post _] using rev_ind.
    + apply app_inj_tail in Heq as [-> [= <- <-]].
      pose proof (sent_cursor _ _ _ Hfr Hs) as Hc.
      pose proof (sent_facts _ _ _ Hfr Hs) as (-> & _).
      apply (emits_step fr cnt p0 cnt' Hfr) in Hem; [|lia|done].
      destruct Hem as [(? & _ & ?)|[(? & _ & ?)|[(? & _ & ?)|(? & _ & ?)]]];
        [by left|by right; left|by right; right; left|].
      right; right; right. split; [lia|done].
    + change (pre ++ (ep, p) :: post ++ [x])
        with (pre ++ ((ep, p) :: post) ++ [x]) in Heq.
      rewrite app_assoc in Heq. apply app_inj_tail in Heq as [Heq _].
      by apply (IH pre ep p post).
Qed.

(** X17. The type of a packet follows from where it starts.  With the
    offset of a packet being the number of channels the packets before it
    represent: offset 0 is the start packet (type 4), offsets 6 to 504
    are data or data-skip packets (type 2 or 5), offset 505 is a data
    packet, and offsets 506 to 510 are single packets (type 3); no packet
    starts anywhere else. *)
Theorem frame_packets_type_by_offset (fr : list Z) :
  channel_frame fr →
  ∀ pre ep p post, frame_packets fr = pre ++ (ep, p) :: post →
    (total_channels pre = 0 ∧ head p = Some 4)
    ∨ (6 ≤ total_channels pre ≤ 504 ∧ (head p = Some 2 ∨ head p = Some 5))
    ∨ (total_channels pre = 505 ∧ head p = Some 2)
    ∨ (505 < total_channels pre < 511 ∧ head p = Some 3).
Proof.
  intros Hfr. destruct (frame_packets_sent fr Hfr) as (c & _ & Hs).
  exact (sent_packet_position fr _ c Hfr Hs).
Qed.

Lemma frame_packets_type_by_offset_witness :
  channel_frame frame_three_leading_zeros
  ∧ ∀ pre ep p post,
      frame_packets frame_three_leading_zeros = pre ++ (ep, p) :: post →
      (total_channels pre = 0 ∧ head p = Some 4)
      ∨ (6 ≤ total_channels pre ≤ 504 ∧ (head p = Some 2 ∨ head p = Some 5))
      ∨ (total_channels pre = 505 ∧ head p = Some 2)
      ∨ (505 < total_channels pre < 511 ∧ head p = Some 3).
Proof.
  assert (Hfr : channel_frame frame_three_leading_zeros)
    by (apply channel_frame_check; vm_compute; reflexivity).
  split; [exact Hfr|]. exact (frame_packets_type_by_offset _ Hfr).
Defined.

(** With three leading zeros the frame ends in five single packets. *)
Example frame_packets_tail_of_singles :
  drop 72 (frame_packets frame_three_leading_zeros)
  = [(1, [3; 1; 0; 0; 0; 0; 0; 0]); (1, [3; 1; 0; 0; 0; 0; 0; 0]);
     (1, [3; 1; 0; 0; 0; 0; 0; 0]); (1, [3; 1; 0; 0; 0; 0; 0; 0]);
     (1, [3; 1; 0; 0; 0; 0; 0; 0])].
Proof. vm_compute. reflexivity. Qed.
